(** * Smart HTTP client (src/core/http.py): a shallow embedding

    The Python classes [Http] and [SmartHTTP] are embedded as state-passing
    functions over an explicit object state and an explicit world (log sink,
    debug recorder, files, wire).  Exceptions are values: every operation
    ends in [Return] or [Raise], both carrying the state reached so far,
    because a Python exception leaves earlier mutations in place. *)

From Stdlib Require Import ZArith Ascii String.
From stdpp Require Import gmap strings list fin_maps.

Open Scope Z_scope.
Open Scope string_scope.
Set Warnings "-register-all".

(** ** Python values *)

(** The fragment of Python values that reaches this module through the
    keyword bag [**kwargs], header values and decoded JSON.  Floats are
    outside the fragment.  [VMapping] is an object that is no dict but has
    the mapping interface with string keys (a [CaseInsensitiveDict], a
    [mappingproxy], ...): [items()] yields its pairs, and like every
    container it is truthy when it is not empty.  [VObj] is any other
    object, without an [items] method (a file handle, an auth helper, ...);
    it is truthy like a plain Python object. *)
Inductive pyval : Type :=
| VNone
| VBool (b : bool)
| VInt (n : Z)
| VStr (s : string)
| VList (xs : list pyval)
| VDict (items : list (string * pyval))
| VMapping (name : string) (items : list (string * pyval))
| VObj (name : string).

(** [bool(v)] *)
Definition truthy (v : pyval) : bool :=
  match v with
  | VNone => false
  | VBool b => b
  | VInt n => negb (n =? 0)%Z
  | VStr s => negb (String.eqb s "")
  | VList xs => match xs with [] => false | _ => true end
  | VDict items => match items with [] => false | _ => true end
  | VMapping _ items => match items with [] => false | _ => true end
  | VObj _ => true
  end.

(** [v is not None] *)
Definition is_not_none (v : pyval) : bool :=
  match v with VNone => false | _ => true end.

(** ** Exceptions *)

(** [RequestException k] stands for [requests.RequestException] and its
    transport subclasses ([k] names the subclass: ConnectionError, Timeout,
    ...).  [JSONDecodeError] is [requests.exceptions.JSONDecodeError], which
    derives from [InvalidJSONError] and hence from [RequestException].
    [NotContextManager] is what [with None as x:] raises (a [TypeError];
    an [AttributeError] before Python 3.11).  [CookieConflictError] is
    [requests.cookies.CookieConflictError], a [RuntimeError]. *)
Inductive exn : Type :=
| AssertionError
| TypeError (msg : string)
| AttributeError (msg : string)
| IndexError
| KeyError (key : string)
| ValueError (msg : string)
| CookieConflictError
| NotContextManager
| RequestException (kind : string)
| JSONDecodeError
| OtherError (name : string).

(** [isinstance(e, RequestException)] *)
Definition is_RequestException (e : exn) : bool :=
  match e with
  | RequestException _ | JSONDecodeError => true
  | _ => false
  end.

(** Result of a call that touches no state (a constructor). *)
Inductive result (A : Type) : Type :=
| Ok (a : A)
| Err (e : exn).
Arguments Ok {A} a.
Arguments Err {A} e.

#[global] Instance result_ret : MRet result := λ A a, Ok a.
#[global] Instance result_bind : MBind result := λ A B f r,
  match r with Ok a => f a | Err e => Err e end.

(** ** The state-and-exception monad *)

Inductive outcome (S A : Type) : Type :=
| Return (a : A) (s : S)
| Raise (e : exn) (s : S).
Arguments Return {S A} a s.
Arguments Raise {S A} e s.

Definition M (S A : Type) : Type := S → outcome S A.

Definition state_of {S A} (o : outcome S A) : S :=
  match o with Return _ s => s | Raise _ s => s end.

#[global] Instance M_ret {S} : MRet (M S) := λ A a s, Return a s.
#[global] Instance M_bind {S} : MBind (M S) := λ A B f m s,
  match m s with
  | Return a s' => f a s'
  | Raise e s' => Raise e s'
  end.

Definition raise {S A} (e : exn) : M S A := λ s, Raise e s.
Definition get_state {S} : M S S := λ s, Return s s.
Definition modify {S} (f : S → S) : M S unit := λ s, Return tt (f s).

(** [try: body / except ...: handler]; the handler re-raises what it does
    not catch. *)
Definition try_except {S A} (body : M S A) (handler : exn → M S A) : M S A :=
  λ s, match body s with
       | Return a s' => Return a s'
       | Raise e s' => handler e s'
       end.

(** [for x in xs: body x] *)
Fixpoint for_each {S A} (xs : list A) (body : A → M S unit) : M S unit :=
  match xs with
  | [] => mret tt
  | x :: xs' => body x ;; for_each xs' body
  end.

(** Run a computation on a component of the state. *)
Definition zoom {S T A} (proj : S → T) (inj : T → S → S) (m : M T A) : M S A :=
  λ s, match m (proj s) with
       | Return a t => Return a (inj t s)
       | Raise e t => Raise e (inj t s)
       end.

(** ** Strings *)

(** A character of a [string] is a code point below U+0100.  In that range
    the upper-case letters are A-Z, U+00C0-U+00D6 and U+00D8-U+00DE, and
    [str.lower()] moves each of them up by 32; every other character,
    U+00D7 and U+00DF among them, stays. *)
Definition lower_char (c : ascii) : ascii :=
  let n := nat_of_ascii c in
  if ((65 <=? n) && (n <=? 90))%nat
     || ((192 <=? n) && (n <=? 214))%nat
     || ((216 <=? n) && (n <=? 222))%nat
  then ascii_of_nat (n + 32) else c.

(** [str.lower()] *)
Fixpoint lower (s : string) : string :=
  match s with
  | EmptyString => EmptyString
  | String c s' => String (lower_char c) (lower s')
  end.

(** [needle in hay] for strings. *)
Fixpoint contains (needle hay : string) : bool :=
  String.prefix needle hay ||
  match hay with
  | EmptyString => false
  | String _ hay' => contains needle hay'
  end.

(** ** requests.structures.CaseInsensitiveDict *)

(** The library keeps [_store[key.lower()] = (key, value)]. *)
Abbreviation CaseInsensitiveDict := (gmap string (string * pyval)).

Definition ci_set (key : string) (value : pyval) (d : CaseInsensitiveDict)
  : CaseInsensitiveDict := <[lower key := (key, value)]> d.
Definition ci_del (key : string) (d : CaseInsensitiveDict)
  : CaseInsensitiveDict := delete (lower key) d.
Definition ci_get (key : string) (d : CaseInsensitiveDict) : option pyval :=
  snd <$> d !! lower key.
Definition ci_contains (key : string) (d : CaseInsensitiveDict) : bool :=
  bool_decide (is_Some (d !! lower key)).
(** [dict(d.items())]: the entries under their original spelling. *)
Definition ci_items (d : CaseInsensitiveDict) : gmap string pyval :=
  list_to_map (snd <$> map_to_list d).

(** ** Python dicts in insertion order *)

(** A dict with string keys as the list of its items, in insertion order;
    a dict holds each key once. *)
Fixpoint od_get {V} (k : string) (d : list (string * V)) : option V :=
  match d with
  | [] => None
  | (k', v) :: d' => if decide (k = k') then Some v else od_get k d'
  end.

(** [d[k] = v]: an old key keeps its place, a new one goes last. *)
Fixpoint od_set {V} (k : string) (v : V) (d : list (string * V)) : list (string * V) :=
  match d with
  | [] => [(k, v)]
  | (k', v') :: d' =>
      if decide (k = k') then (k', v) :: d' else (k', v') :: od_set k v d'
  end.

(** [del d[k]] for a key that is there. *)
Fixpoint od_del {V} (k : string) (d : list (string * V)) : list (string * V) :=
  match d with
  | [] => []
  | (k', v') :: d' => if decide (k = k') then d' else (k', v') :: od_del k d'
  end.

(** ** requests.cookies.RequestsCookieJar *)

(** A cookie, as far as the jar's dict interface looks at it.  The value of
    a cookie sent without one is None. *)
Record Cookie : Type := {
  cookie_domain : string;
  cookie_path : string;
  cookie_name : string;
  cookie_value : option string
}.

(** The jar is [http.cookiejar]'s nested dict
    [_cookies[domain][path][name]]. *)
Abbreviation CookieJar :=
  (list (string * list (string * list (string * option string)))).

#[global] Instance jar_empty : Empty CookieJar := [].

(** [iter(jar)]: the cookies, domain by domain and path by path. *)
Definition jar_cookies (jar : CookieJar) : list Cookie :=
  dp ← jar; pn ← dp.2; nv ← pn.2;
  [{| cookie_domain := dp.1; cookie_path := pn.1;
      cookie_name := nv.1; cookie_value := nv.2 |}].

(** [_cookies[domain][path][name]], if there is such a cookie. *)
Definition jar_lookup (domain path name : string) (jar : CookieJar)
  : option (option string) :=
  c2 ← od_get domain jar; c3 ← od_get path c2; od_get name c3.

(** The double quote and the backslash as strings. *)
Definition dquote : string := String "034"%char EmptyString.
Definition backslash : string := String "092"%char EmptyString.

(** [value.replace(old, new)] with a backslash and a double quote for [old]
    and nothing for [new]: every such pair goes, scanning from the left. *)
Fixpoint remove_escaped_quotes (value : string) : string :=
  match value with
  | String "092"%char (String "034"%char rest) => remove_escaped_quotes rest
  | String c rest => String c (remove_escaped_quotes rest)
  | EmptyString => EmptyString
  end.

(** [value.startswith(q) and value.endswith(q)], [q] the double quote. *)
Definition quoted (value : string) : bool :=
  String.prefix dquote value
  && String.prefix dquote (String.rev value).

(** What [RequestsCookieJar.set_cookie] stores for a value: a string that
    starts and ends with a double quote loses its escaped quotes. *)
Definition jar_rewrite (value : option string) : option string :=
  match value with
  | Some v => if quoted v then Some (remove_escaped_quotes v) else Some v
  | None => None
  end.

(** [RequestsCookieJar.set_cookie], over [CookieJar.set_cookie]: missing
    domain and path dicts are created, then the cookie is stored under its
    name. *)
Definition jar_set_cookie (c : Cookie) (jar : CookieJar) : CookieJar :=
  let c2 := default [] (od_get (cookie_domain c) jar) in
  let c3 := default [] (od_get (cookie_path c) c2) in
  od_set (cookie_domain c)
    (od_set (cookie_path c)
       (od_set (cookie_name c) (jar_rewrite (cookie_value c)) c3) c2) jar.

(** [CookieJar.clear(domain, path, name)]:
    [del self._cookies[domain][path][name]], the emptied dicts staying
    where they are.  (It is only called for cookies the jar holds.) *)
Definition jar_clear (domain path name : string) (jar : CookieJar) : CookieJar :=
  match od_get domain jar with
  | Some c2 =>
      match od_get path c2 with
      | Some c3 => od_set domain (od_set path (od_del name c3) c2) jar
      | None => jar
      end
  | None => jar
  end.

(** [remove_cookie_by_name(jar, name)]: the cookies of that name are
    collected over all domains and paths, then cleared one by one. *)
Definition remove_cookie_by_name (name : string) (jar : CookieJar) : CookieJar :=
  foldl (λ j c, jar_clear (cookie_domain c) (cookie_path c) (cookie_name c) j) jar
    (filter (λ c, cookie_name c = name) (jar_cookies jar)).

(** [jar.set(name, value)]: a [None] value unsets the name; any other value
    becomes a cookie for domain [''] and path ['/']. *)
Definition jar_set (name : string) (value : option string) (jar : CookieJar) : CookieJar :=
  match value with
  | None => remove_cookie_by_name name jar
  | Some v =>
      jar_set_cookie {| cookie_domain := ""; cookie_path := "/";
                        cookie_name := name; cookie_value := Some v |} jar
  end.

(** [jar.update(d)] for a plain dict: [jar[key] = d[key]] for every key in
    the dict's order. *)
Definition jar_update (d : list (string * string)) (jar : CookieJar) : CookieJar :=
  foldl (λ j kv, jar_set kv.1 (Some kv.2) j) jar d.

(** The loop of [_find_no_duplicates(name)]: a second cookie of the name
    found while [toReturn] is not None is a conflict. *)
Fixpoint find_loop (name : string) (toReturn : option string) (cs : list Cookie)
  : result (option string) :=
  match cs with
  | [] => Ok toReturn
  | c :: cs' =>
      if decide (cookie_name c = name) then
        match toReturn with
        | Some _ => Err CookieConflictError
        | None => find_loop name (cookie_value c) cs'
        end
      else find_loop name toReturn cs'
  end.

(** [jar[name]]: the value found, when it is truthy; KeyError otherwise. *)
Definition find_no_duplicates (name : string) (jar : CookieJar) : result string :=
  toReturn ← find_loop name None (jar_cookies jar);
  match toReturn with
  | Some v => if decide (v = "") then Err (KeyError name) else Ok v
  | None => Err (KeyError name)
  end.

(** [dict(jar)]: the constructor asks the jar for [keys()], the names of
    all cookies in order, and reads [jar[key]] for each. *)
Fixpoint dict_from_keys (jar : CookieJar) (keys : list string)
    (acc : list (string * string)) : result (list (string * string)) :=
  match keys with
  | [] => Ok acc
  | key :: keys' =>
      v ← find_no_duplicates key jar;
      dict_from_keys jar keys' (od_set key v acc)
  end.
Definition jar_dict (jar : CookieJar) : result (list (string * string)) :=
  dict_from_keys jar (cookie_name <$> jar_cookies jar) [].

(** [dict(jar.items())]: the pairs of name and value, a later cookie
    replacing an earlier one of its name. *)
Definition jar_items_dict (jar : CookieJar) : gmap string (option string) :=
  foldl (λ d c, <[cookie_name c := cookie_value c]> d) ∅ (jar_cookies jar).

(** ** The dataclasses *)

(** A field of a dataclass body: its name, and its default if it has one. *)
Record FieldDecl : Type := {
  field_name : string;
  field_default : option pyval
}.

(** [dataclasses] takes a default for mutable when its class defines no
    [__hash__]: a list, a dict, a mapping. *)
Definition unhashable (v : pyval) : bool :=
  match v with
  | VList _ | VDict _ | VMapping _ _ => true
  | _ => false
  end.

(** The name [type(v)] prints for a mutable default. *)
Definition type_name (v : pyval) : string :=
  match v with
  | VList _ => "list"
  | VDict _ => "dict"
  | VMapping name _ | VObj name => name
  | _ => "object"
  end.

(** [dataclasses._get_field] for one annotated name: a mutable default is a
    ValueError. *)
Definition get_field (f : FieldDecl) : result FieldDecl :=
  match field_default f with
  | Some v =>
      if unhashable v then
        Err (ValueError ("mutable default <class '" ++ type_name v
                         ++ "'> for field " ++ field_name f
                         ++ " is not allowed: use default_factory"))
      else Ok f
  | None => Ok f
  end.

Fixpoint get_fields (body : list FieldDecl) : result (list FieldDecl) :=
  match body with
  | [] => Ok []
  | f :: body' => f' ← get_field f; fs ← get_fields body'; Ok (f' :: fs)
  end.

(** The check made while [__init__] is written: a field without default
    must not follow one with a default. *)
Fixpoint init_order (seen_default : bool) (fields : list FieldDecl) : result unit :=
  match fields with
  | [] => Ok tt
  | f :: fields' =>
      match field_default f with
      | Some _ => init_order true fields'
      | None =>
          if seen_default then
            Err (TypeError ("non-default argument '" ++ field_name f
                            ++ "' follows default argument"))
          else init_order seen_default fields'
      end
  end.

(** The [@dataclass] decorator on a class body, given the fields of its
    dataclass bases: the body's fields are read in order, put after the
    inherited ones (a redeclared name keeps its place), and the order of
    defaults is checked. *)
Definition dataclass (base_fields body : list FieldDecl) : result (list FieldDecl) :=
  cls_fields ← get_fields body;
  let fields :=
    (λ kv : string * FieldDecl, kv.2) <$>
    foldl (λ fs f, od_set (field_name f) f fs)
      ((λ f, (field_name f, f)) <$> base_fields) cls_fields in
  init_order false fields ;;
  Ok fields.

Definition no_default (name : string) : FieldDecl :=
  {| field_name := name; field_default := None |}.
Definition with_default (name : string) (v : pyval) : FieldDecl :=
  {| field_name := name; field_default := Some v |}.

(** The four class bodies, lines 32 to 79. *)
Definition AbsHttpData_body : list FieldDecl := [no_default "time_stamp"].
Definition HttpRequest_body : list FieldDecl :=
  [with_default "method" (VStr ""); with_default "url" (VStr "");
   with_default "params" (VDict []); with_default "headers" (VDict []);
   with_default "cookies" (VDict [])].
Definition HttpResponse_body : list FieldDecl :=
  [with_default "success" (VBool false); with_default "code" (VInt 200);
   with_default "url" (VStr ""); with_default "headers" (VDict []);
   with_default "cookies" (VDict []); with_default "text" (VStr "");
   with_default "json" (VDict [])].
Definition ClientData_body : list FieldDecl := [no_default "req"; no_default "res"].

(** The class statements in the order the module runs them; the first one
    that raises ends the import. *)
Definition module_classes : result unit :=
  abs ← dataclass [] AbsHttpData_body;
  dataclass abs HttpRequest_body ;;
  dataclass abs HttpResponse_body ;;
  dataclass [] ClientData_body ;;
  Ok tt.

(** ** Captured request and response *)

(** The objects [save_req] builds and [save_res] updates, field by field
    as lines 45 to 79 declare them.  Whether the class statements go
    through is the matter of [dataclass] above, which refuses the two with
    dict defaults; these records are the instances that the bodies of
    [save_req] and [save_res] are written against, and they are there so
    that the debug branch of [req] can be followed at all. *)
Record HttpRequest : Type := {
  req_time_stamp : Z;
  req_method : string;
  req_url : string;
  req_params : gmap string pyval;
  req_headers : gmap string pyval;
  req_cookies : gmap string (option string)
}.

Record HttpResponse : Type := {
  res_time_stamp : Z;
  res_success : bool;
  res_code : Z;
  res_url : string;
  res_headers : gmap string string;
  res_cookies : gmap string (option string);
  res_text : string;
  res_json : pyval
}.

(** [HttpResponse(time_stamp=ts)] as [save_req] writes it: every other
    field at the default its class body declares. *)
Definition HttpResponse_default (ts : Z) : HttpResponse :=
  {| res_time_stamp := ts; res_success := false; res_code := 200;
     res_url := ""; res_headers := ∅; res_cookies := ∅;
     res_text := ""; res_json := VDict [] |}.

Record ClientData : Type := {
  data_req : HttpRequest;
  data_res : HttpResponse
}.

(** ** The transport's view *)

(** [requests.Response], as far as this module reads it; [cookies_] is the
    jar of the cookies the response set. *)
Record Response : Type := {
  status_code : Z;
  text : string;
  url_ : string;
  headers_ : gmap string string;
  cookies_ : CookieJar
}.

(** [Response.ok]: [raise_for_status] complains for 400 <= status < 600;
    [bool(response)] is the same test. *)
Definition ok (r : Response) : bool :=
  negb ((400 <=? status_code r)%Z && (status_code r <? 600)%Z).

(** [requests.Session]: default headers (case-insensitive), the cookie jar
    and the proxy map. *)
Record Session : Type := {
  headers : CaseInsensitiveDict;
  cookies : CookieJar;
  proxies : gmap string string
}.

(** One [Session.request(method, url, **kwargs)] as it leaves the client. *)
Record Call : Type := {
  call_method : string;
  call_url : string;
  call_kwargs : gmap string pyval;
  call_session : Session
}.

Inductive TransportResult : Type :=
| TResponse (r : Response)
| TRaise (e : exn).

(** ** Collaborators outside this module *)

(** Handles of the two optional collaborators; all handles share the one
    sink kept in the world. *)
Inductive Logger : Type := LoggerRef.
Inductive Debugger : Type := DebuggerRef.

Inductive LogLine : Type :=
| LogInfo (code : Z) (length : nat) (url : string)
| LogException (err : exn).

Inductive Event : Type :=
| Dispatched (c : Call)
| Logged (l : LogLine)
| Slept (base : Z).

Inductive File : Type :=
| TextFile (lines : list string)
| DictFile (d : list (string * string)).

(** What lies outside the objects: the chronological trace of dispatches,
    log lines and sleeps, the debug recorder's counter and store, the file
    system and the clock read by [int(time())]. *)
Record World : Type := {
  events : list Event;
  debug_id : Z;
  debug_store : gmap Z ClientData;
  files : gmap string File;
  clock : Z
}.

Definition emit (e : Event) (w : World) : World :=
  {| events := events w ++ [e]; debug_id := debug_id w;
     debug_store := debug_store w; files := files w; clock := clock w |}.

Definition is_dispatch (e : Event) : bool :=
  match e with Dispatched _ => true | _ => false end.
Definition is_sleep (e : Event) : bool :=
  match e with Slept _ => true | _ => false end.
Definition dispatches (w : World) : nat := length (filter is_dispatch (events w)).
Definition sleeps (w : World) : nat := length (filter is_sleep (events w)).

(** Modelled from the spec: the logger collaborator ([base.log.Logger]) is
    not among the sources.  "One structured info-level line per completed
    request (status, bodyLength, finalUrl) and one error-level line per
    transport failure": each call appends its line to the sink. *)
Definition Logger_info (code : Z) (length : nat) (url : string) (w : World) : World :=
  emit (Logged (LogInfo code length url)) w.
(** Modelled from the spec: [Logger.exception] of the same absent
    collaborator, the "error-level line per transport failure". *)
Definition Logger_exception (err : exn) (w : World) : World :=
  emit (Logged (LogException err)) w.

(** Modelled from the spec: the debug recorder ([base.debug.Debugger]) is
    not among the sources.  [id_add] moves to the next identifier ("strictly
    increasing"); [save] persists the record "under the current id",
    replacing what that id held. *)
Definition Debugger_id_add (w : World) : World :=
  {| events := events w; debug_id := debug_id w + 1;
     debug_store := debug_store w; files := files w; clock := clock w |}.
(** Modelled from the spec: [Debugger.save] of the same absent recorder; it
    "persists the half-populated DebugRecord under the current id" and
    later "re-persists the full record". *)
Definition Debugger_save (d : ClientData) (w : World) : World :=
  {| events := events w; debug_id := debug_id w;
     debug_store := <[debug_id w := d]> (debug_store w);
     files := files w; clock := clock w |}.

(** Modelled from the spec: the file helpers ([base.io.IO]) are not among
    the sources.  [save_dict] and [load_dict] "load/save a key-value mapping
    to a file", "loaded/saved wholesale". *)
Definition IO_save_dict (path : string) (d : list (string * string)) (w : World) : World :=
  {| events := events w; debug_id := debug_id w; debug_store := debug_store w;
     files := <[path := DictFile d]> (files w); clock := clock w |}.
(** Modelled from the spec: [IO.load_dict] reads back the mapping a file
    holds; a source that cannot be read as one is an error
    (SourceUnavailable). *)
Definition IO_load_dict (path : string) (w : World) : result (list (string * string)) :=
  match files w !! path with
  | Some (DictFile d) => Ok d
  | _ => Err (OtherError "SourceUnavailable")
  end.
(** Modelled from the spec: [IO.load_line] reads "line-oriented text",
    keeps "only lines containing a required marker substring" and returns
    them "in file order"; it "fails with SourceUnavailable if the backing
    source cannot be read". *)
Definition IO_load_line (file_name keyword : string) (w : World) : result (list string) :=
  match files w !! file_name with
  | Some (TextFile lines) => Ok (filter (λ l, Is_true (contains keyword l)) lines)
  | _ => Err (OtherError "SourceUnavailable")
  end.
(** [Path.is_file()] *)
Definition is_file (path : string) (w : World) : bool :=
  bool_decide (is_Some (files w !! path)).

(** Modelled from the spec: [Utils.smart_delay] ([utils.common]) is not among
    the sources.  It is "a blocking sleep" for "a randomized delay (baseline
    2, jittered)"; the trace records the baseline asked for. *)
Definition Utils_smart_delay (base : Z) (w : World) : World :=
  emit (Slept base) w.

(** ** class Http *)

Record Http : Type := {
  user_agent : string;
  proxy_url : string;
  logger : option Logger;
  timeout : Z;
  debugger : option Debugger;
  client : Session;
  data : option ClientData
}.

Definition set_headers (hs : CaseInsensitiveDict) (c : Session) : Session :=
  {| headers := hs; cookies := cookies c; proxies := proxies c |}.
Definition set_cookies (j : CookieJar) (c : Session) : Session :=
  {| headers := headers c; cookies := j; proxies := proxies c |}.
Definition set_proxies (ps : gmap string string) (c : Session) : Session :=
  {| headers := headers c; cookies := cookies c; proxies := ps |}.
Definition set_client (c : Session) (h : Http) : Http :=
  {| user_agent := user_agent h; proxy_url := proxy_url h; logger := logger h;
     timeout := timeout h; debugger := debugger h; client := c; data := data h |}.
Definition set_data (d : ClientData) (h : Http) : Http :=
  {| user_agent := user_agent h; proxy_url := proxy_url h; logger := logger h;
     timeout := timeout h; debugger := debugger h; client := client h;
     data := Some d |}.

(** Methods of [Http] run on the object and the world. *)
Abbreviation HttpM := (M (Http * World)).

Definition update_self (f : Http → Http) : HttpM unit := modify (λ s, (f s.1, s.2)).
Definition update_world (f : World → World) : HttpM unit := modify (λ s, (s.1, f s.2)).
Definition lift_result {S A} (r : result A) : M S A :=
  match r with Ok a => mret a | Err e => raise e end.

(** [kwargs.get(key)] *)
Definition kwargs_get (key : string) (kwargs : gmap string pyval) : pyval :=
  default VNone (kwargs !! key).

Definition header_set_ (key : string) (value : pyval) (h : Http) : Http :=
  if is_not_none value then
    set_client (set_headers (ci_set key value (headers (client h))) (client h)) h
  else if ci_contains key (headers (client h)) then
    set_client (set_headers (ci_del key (headers (client h))) (client h)) h
  else h.

Definition header_set (key : string) (value : pyval) : HttpM unit :=
  update_self (header_set_ key value).

Definition header_get (key : string) (h : Http) : pyval :=
  if negb (bool_decide (key = "")) && ci_contains key (headers (client h)) then
    match ci_get key (headers (client h)) with
    | Some value => if truthy value then value else VStr ""
    | None => VStr ""
    end
  else VStr "".

Definition h_accept (value : string) : HttpM unit := header_set "Accept" (VStr value).
Definition h_encoding (value : string) : HttpM unit := header_set "Accept-Encoding" (VStr value).
Definition h_lang (value : string) : HttpM unit := header_set "Accept-Language" (VStr value).
Definition h_origin (value : pyval) : HttpM unit := header_set "Origin" value.
Definition h_refer (value : pyval) : HttpM unit := header_set "Referer" value.
Definition h_type (value : pyval) : HttpM unit := header_set "Content-Type" value.
Definition h_xml (value : string) : HttpM unit := header_set "X-Requested-With" (VStr value).

Definition h_data (utf8 : bool) : HttpM unit :=
  let value := "application/x-www-form-urlencoded" in
  let value := if utf8 then value ++ "; charset=UTF-8" else value in
  header_set "Content-Type" (VStr value).

Definition h_json (utf8 : bool) : HttpM unit :=
  let value := "application/json" in
  let value := if utf8 then value ++ "; charset=UTF-8" else value in
  header_set "Content-Type" (VStr value).

Definition cookie_set (key : string) (value : option string) : HttpM unit :=
  update_self (λ h, set_client (set_cookies (jar_set key value (cookies (client h))) (client h)) h).

Definition cookie_load (file_cookie : string) : HttpM unit :=
  s ← get_state;
  if is_file file_cookie s.2 then
    d ← lift_result (IO_load_dict file_cookie s.2);
    update_self (λ h, set_client (set_cookies (jar_update d (cookies (client h))) (client h)) h)
  else mret tt.

Definition cookie_save (file_cookie : string) : HttpM unit :=
  s ← get_state;
  d ← lift_result (jar_dict (cookies (client s.1)));
  update_world (IO_save_dict file_cookie d).

(** [headers.items()] on the [headers] option: a dict and a mapping object
    have it, the other values do not. *)
Definition dict_items {S} (v : pyval) : M S (list (string * pyval)) :=
  match v with
  | VDict items | VMapping _ items => mret items
  | _ => raise (AttributeError "items")
  end.

Definition prepare_headers (kwargs : gmap string pyval) : HttpM unit :=
  (if is_not_none (kwargs_get "json" kwargs) then h_json true
   else if is_not_none (kwargs_get "data" kwargs) then h_data true
   else mret tt) ;;
  let headers := kwargs_get "headers" kwargs in
  if is_not_none headers then
    items ← dict_items headers;
    for_each items (λ kv, header_set kv.1 kv.2)
  else mret tt.

(** [bool(obj)] for an optional collaborator. *)
Definition attached {A} (o : option A) : bool :=
  match o with Some _ => true | None => false end.

(** An argument of a constructor call. *)
Inductive arg : Type :=
| AStr (s : string)
| AInt (n : Z)
| ALogger (l : option Logger)
| ADebugger (d : option Debugger).

(** Binding of a keyword call against a parameter list: a keyword that names
    no parameter is a [TypeError], raised before the body runs. *)
Definition bind_keywords (params : list string) (kwargs : list (string * arg))
  : result (list (string * arg)) :=
  match List.find (λ kv, negb (bool_decide (kv.1 ∈ params))) kwargs with
  | Some kv => Err (TypeError ("got an unexpected keyword argument '" ++ kv.1 ++ "'"))
  | None => Ok kwargs
  end.

Definition keyword (name : string) (kwargs : list (string * arg)) : option arg :=
  snd <$> List.find (λ kv, bool_decide (kv.1 = name)) kwargs.

(** What lies underneath this module.  [default_headers] is
    [requests.utils.default_headers()], the header set of a new session.
    [py_str] is the built-in [str]; [orjson_dumps_ok v] says that
    [orjson.dumps] accepts [v]; [orjson_loads] and [json_loads] are the
    decoders behind [orjson.loads] and [Response.json], absent on text that
    is not valid JSON.  [transport n c] is what [Session.request] answers to
    call [c] after [n] earlier dispatches, and [cookies_after n c] is the
    session's cookie jar once that exchange is over: [Session.request]
    persists in it the cookies the server set on the way, redirects
    included, whether it ends in a response or in an error. *)
Class Platform : Type := {
  default_headers : CaseInsensitiveDict;
  py_str : pyval → string;
  orjson_dumps_ok : pyval → bool;
  orjson_loads : string → option pyval;
  json_loads : string → option pyval;
  transport : nat → Call → TransportResult;
  cookies_after : nat → Call → CookieJar
}.

Section Client.

Context {platform : Platform}.

(** [Session()] *)
Definition Session_new : Session :=
  {| headers := default_headers; cookies := ∅; proxies := ∅ |}.

(** The body of [Http.__init__]. *)
Definition Http_init (user_agent proxy_url : string) (timeout : Z)
    (logger : option Logger) (debugger : option Debugger) : result Http :=
  if negb (truthy (VStr user_agent)) then Err AssertionError else
  let client := Session_new in
  let client := set_headers (ci_set "User-Agent" (VStr user_agent) (headers client)) client in
  let client :=
    if truthy (VStr proxy_url)
    then set_proxies (<["http" := proxy_url]> (<["https" := proxy_url]> ∅)) client
    else client in
  Ok {| user_agent := user_agent; proxy_url := proxy_url; logger := logger;
        timeout := timeout; debugger := debugger; client := client;
        data := None |}.

Definition Http_params : list string :=
  ["user_agent"; "proxy_url"; "timeout"; "logger"; "debugger"].

(** A call [Http(name=value, ...)]: keywords are bound first, then the
    body runs with the declared defaults ([timeout=30], [logger=None],
    [debugger=None]).  Arguments are taken at their annotated types. *)
Definition Http_new (kwargs : list (string * arg)) : result Http :=
  bound ← bind_keywords Http_params kwargs;
  match keyword "user_agent" bound, keyword "proxy_url" bound with
  | Some (AStr user_agent), Some (AStr proxy_url) =>
      Http_init user_agent proxy_url
        (match keyword "timeout" bound with Some (AInt n) => n | _ => 30 end)
        (match keyword "logger" bound with Some (ALogger l) => l | _ => None end)
        (match keyword "debugger" bound with Some (ADebugger d) => d | _ => None end)
  | _, _ => Err (TypeError "missing required argument")
  end.

(** The per-value step of [save_req]: [orjson.dumps({"v": value})], and
    on [TypeError] the value becomes [str(value)]. *)
Definition coerce (value : pyval) : pyval :=
  if orjson_dumps_ok value then value else VStr (py_str value).

Definition save_req (method url : string) (debug : bool)
    (kwargs : gmap string pyval) : HttpM unit :=
  s ← get_state;
  if debug && attached (debugger s.1) then
    let params := coerce <$> kwargs in
    let cookies := jar_items_dict (cookies (client s.1)) in
    let headers := ci_items (headers (client s.1)) in
    let time_stamp := clock s.2 in
    let d := {| data_req := {| req_time_stamp := time_stamp;
                               req_method := method;
                               req_url := url;
                               req_params := params;
                               req_headers := headers;
                               req_cookies := cookies |};
                data_res := HttpResponse_default time_stamp |} in
    update_self (set_data d) ;;
    update_world Debugger_id_add ;;
    update_world (Debugger_save d)
  else mret tt.

Definition save_res (response : Response) (debug : bool) : HttpM unit :=
  s ← get_state;
  if debug && attached (debugger s.1) then
    let cookies := jar_items_dict (cookies_ response) in
    let headers := headers_ response in
    let res_json := default (VDict []) (orjson_loads (text response)) in
    match data s.1 with
    | None => raise (AttributeError "data")
    | Some d =>
        let d' := {| data_req := data_req d;
                     data_res := {| res_time_stamp := res_time_stamp (data_res d);
                                    res_success := ok response;
                                    res_code := status_code response;
                                    res_url := url_ response;
                                    res_headers := headers;
                                    res_cookies := cookies;
                                    res_text := text response;
                                    res_json := res_json |} |} in
        update_self (set_data d') ;;
        update_world (Debugger_save d')
    end
  else mret tt.

(** [self.logger.info(...)] and [self.logger.exception(err)]: the
    attribute is looked up on whatever [self.logger] holds. *)
Definition logger_info (code : Z) (length : nat) (url : string) : HttpM unit :=
  s ← get_state;
  match logger s.1 with
  | Some _ => update_world (Logger_info code length url)
  | None => raise (AttributeError "info")
  end.
Definition logger_exception (err : exn) : HttpM unit :=
  s ← get_state;
  match logger s.1 with
  | Some _ => update_world (Logger_exception err)
  | None => raise (AttributeError "exception")
  end.

(** [self.client.request(method, url, **kwargs)] *)
Definition request (method url : string) (kwargs : gmap string pyval) : HttpM Response :=
  λ s,
    let c := {| call_method := method; call_url := url;
                call_kwargs := kwargs; call_session := client s.1 |} in
    let s' := (set_client (set_cookies (cookies_after (dispatches s.2) c) (client s.1)) s.1,
               emit (Dispatched c) s.2) in
    match transport (dispatches s.2) c with
    | TResponse r => Return r s'
    | TRaise e => Raise e s'
    end.

(** [Http.req].  The local [response] is still [None] whenever the
    handler runs: in this model only the dispatch raises a
    [RequestException]. *)
Definition req (method url : string) (debug : bool)
    (kwargs : gmap string pyval) : HttpM (option Response) :=
  try_except
    (prepare_headers kwargs ;;
     save_req method url debug kwargs ;;
     s ← get_state;
     let kwargs :=
       if negb (truthy (kwargs_get "timeout" kwargs))
       then <["timeout" := VInt (timeout s.1)]> kwargs
       else kwargs in
     response ← request method url kwargs;
     let code := status_code response in
     let length := String.length (text response) in
     logger_info code length (url_ response) ;;
     save_res response debug ;;
     mret (Some response))
    (λ err,
       if is_RequestException err
       then logger_exception err ;; mret None
       else raise err).

Definition get (url : string) (debug : bool) (kwargs : gmap string pyval) :=
  req "GET" url debug kwargs.
Definition post (url : string) (debug : bool) (kwargs : gmap string pyval) :=
  req "POST" url debug kwargs.
Definition head (url : string) (debug : bool) (kwargs : gmap string pyval) :=
  req "HEAD" url debug kwargs.
Definition options (url : string) (debug : bool) (kwargs : gmap string pyval) :=
  req "OPTIONS" url debug kwargs.
Definition connect (url : string) (debug : bool) (kwargs : gmap string pyval) :=
  req "CONNECT" url debug kwargs.
Definition put (url : string) (debug : bool) (kwargs : gmap string pyval) :=
  req "PUT" url debug kwargs.
Definition patch (url : string) (debug : bool) (kwargs : gmap string pyval) :=
  req "PATCH" url debug kwargs.
Definition delete_ (url : string) (debug : bool) (kwargs : gmap string pyval) :=
  req "DELETE" url debug kwargs.

(** ** class SmartHTTP *)

Record SmartHTTP : Type := {
  file_user_agent : string;
  file_proxy_url : string;
  smart_logger : Logger;
  smart_timeout : Z;
  smart_debugger : option Debugger;
  list_ua : list string;
  list_px : list string;
  http : Http
}.

Definition set_http (h : Http) (self : SmartHTTP) : SmartHTTP :=
  {| file_user_agent := file_user_agent self;
     file_proxy_url := file_proxy_url self;
     smart_logger := smart_logger self;
     smart_timeout := smart_timeout self;
     smart_debugger := smart_debugger self;
     list_ua := list_ua self; list_px := list_px self; http := h |}.

Definition load_user_agent (file_user_agent : string) (w : World) : result (list string) :=
  IO_load_line file_user_agent "Mozilla" w.

Definition load_proxy (file_proxy_url : string) (w : World) : result (list string) :=
  IO_load_line file_proxy_url "http" w.

(** [new_http] reads [self.timeout], [self.logger] and [self.debugger];
    it already runs inside [__init__], before [self.http] exists, so it
    takes the three attributes. *)
Definition new_http (timeout : Z) (logger : Logger) (debugger : option Debugger)
    (user_agent proxy_url : string) : result Http :=
  Http_new [("user_agent", AStr user_agent);
            ("proxy_url", AStr proxy_url);
            ("timeou", AInt timeout);
            ("logger", ALogger (Some logger));
            ("debugger", ADebugger debugger)].

(** [random.choice(seq)] with the draw [r] made explicit. *)
Definition choice (seq : list string) (r : nat) : result string :=
  match seq !! (r mod length seq)%nat with
  | Some x => Ok x
  | None => Err IndexError
  end.

(** [seq[0]] *)
Definition first (seq : list string) : result string :=
  match seq with
  | x :: _ => Ok x
  | [] => Err IndexError
  end.

Definition rnd_http (self : SmartHTTP) (r1 r2 : nat) : result Http :=
  user_agent ← choice (list_ua self) r1;
  proxy_url ← choice (list_px self) r2;
  new_http (smart_timeout self) (smart_logger self) (smart_debugger self)
    user_agent proxy_url.

Definition default_http (timeout : Z) (logger : Logger) (debugger : option Debugger)
    (list_ua list_px : list string) : result Http :=
  user_agent ← first list_ua;
  proxy_url ← first list_px;
  new_http timeout logger debugger user_agent proxy_url.

(** [SmartHTTP.__init__] *)
Definition SmartHTTP_init (file_user_agent file_proxy_url : string)
    (logger : Logger) (timeout : Z) (debugger : option Debugger) (w : World)
    : result SmartHTTP :=
  list_ua ← load_user_agent file_user_agent w;
  list_px ← load_proxy file_proxy_url w;
  http ← default_http timeout logger debugger list_ua list_px;
  Ok {| file_user_agent := file_user_agent; file_proxy_url := file_proxy_url;
        smart_logger := logger; smart_timeout := timeout;
        smart_debugger := debugger; list_ua := list_ua; list_px := list_px;
        http := http |}.

(** Methods of [SmartHTTP] run on the object and the world; a call on
    [self.http] runs on that component. *)
Definition on_http {A} (m : HttpM A) : M (SmartHTTP * World) A :=
  zoom (λ s, (http s.1, s.2)) (λ t s, (set_http t.1 s.1, t.2)) m.

Definition smart_delay (base : Z) : M (SmartHTTP * World) unit :=
  modify (λ s, (s.1, Utils_smart_delay base s.2)).

(** [with mgr as response: body]: [None] has no [__enter__]; a
    [Response] enters as itself and is closed on the way out. *)
Definition with_ {S A} (mgr : option Response) (body : Response → M S A) : M S A :=
  match mgr with
  | Some response => body response
  | None => raise NotContextManager
  end.

(** One pass of the retry loop decides between [return value]
    ([Some value]) and falling through to the delay ([None]). *)
Fixpoint http_get_html_loop (url : string) (debug : bool) (n : nat)
  : M (SmartHTTP * World) string :=
  match n with
  | O => mret ""
  | S n' =>
      r ← try_except
            (mgr ← on_http (get url debug ∅);
             with_ mgr (λ response,
               if ok response then mret (Some (text response)) else mret None))
            (λ err,
               if is_RequestException err
               then (if debug then raise err else mret None)
               else raise err);
      match r with
      | Some value => mret value
      | None => smart_delay 2 ;; http_get_html_loop url debug n'
      end
  end.

Definition http_get_html (url : string) (debug : bool) (retry : Z)
  : M (SmartHTTP * World) string :=
  http_get_html_loop url debug (Z.to_nat retry).

(** [response.json()] *)
Definition Response_json {S} (response : Response) : M S pyval :=
  match json_loads (text response) with
  | Some v => mret v
  | None => raise JSONDecodeError
  end.

Fixpoint http_get_json_loop (url : string) (debug : bool) (n : nat)
  : M (SmartHTTP * World) pyval :=
  match n with
  | O => mret (VDict [])
  | S n' =>
      r ← try_except
            (mgr ← on_http (get url debug ∅);
             with_ mgr (λ response,
               if ok response then v ← Response_json response; mret (Some v)
               else mret None))
            (λ err,
               if is_RequestException err
               then (if debug then raise err else mret None)
               else raise err);
      match r with
      | Some value => mret value
      | None => smart_delay 2 ;; http_get_json_loop url debug n'
      end
  end.

Definition http_get_json (url : string) (debug : bool) (retry : Z)
  : M (SmartHTTP * World) pyval :=
  http_get_json_loop url debug (Z.to_nat retry).

End Client.

(** ** Vocabulary of the statements *)

Definition json_content_type : string := "application/json; charset=UTF-8".
Definition form_content_type : string :=
  "application/x-www-form-urlencoded; charset=UTF-8".

(** The explicit header entries of an option bag, in the order a loop over
    [headers.items()] visits them. *)
Definition explicit_headers (kwargs : gmap string pyval) : list (string * pyval) :=
  match kwargs_get "headers" kwargs with
  | VDict items | VMapping _ items => items
  | _ => []
  end.

(** The value of the last entry that names header [key], up to case. *)
Fixpoint last_entry (key : string) (items : list (string * pyval)) : option pyval :=
  match items with
  | [] => None
  | (k, v) :: rest =>
      match last_entry key rest with
      | Some v' => Some v'
      | None => if bool_decide (lower k = lower key) then Some v else None
      end
  end.

(** The client once the exchange of call [c], dispatched after [n] others,
    is over: its jar is the one the exchange left. *)
Definition after_dispatch `{Platform} (n : nat) (c : Call) (h : Http) : Http :=
  set_client (set_cookies (cookies_after n c) (client h)) h.

(** A jar as Python holds it: each of the nested dicts has each key once. *)
Definition jar_wf (jar : CookieJar) : Prop :=
  NoDup jar.*1
  ∧ Forall (λ dp, NoDup dp.2.*1 ∧ Forall (λ pn, NoDup pn.2.*1) dp.2) jar.

(** The keyword bag [req] hands to the transport for the caller's bag. *)
Definition sent_kwargs (h : Http) (kwargs : gmap string pyval) : gmap string pyval :=
  if truthy (kwargs_get "timeout" kwargs) then kwargs
  else <["timeout" := VInt (timeout h)]> kwargs.

(** What [header_set] leaves alone. *)
Definition same_but_headers (h h' : Http) : Prop :=
  logger h' = logger h ∧ timeout h' = timeout h ∧ debugger h' = debugger h
  ∧ cookies (client h') = cookies (client h) ∧ data h' = data h.

(** ** Sample platforms and states *)

(** The header set of a new session in requests 2.32. *)
Definition sample_headers : CaseInsensitiveDict :=
  ci_set "User-Agent" (VStr "python-requests/2.32.3")
    (ci_set "Accept-Encoding" (VStr "gzip, deflate")
       (ci_set "Accept" (VStr "*/*")
          (ci_set "Connection" (VStr "keep-alive") ∅))).

(** Stand-ins for [str], [orjson.dumps] and the JSON decoders, right on
    the values the examples below use: an opaque object is not
    serialisable and prints as its name; of all texts only ["{}"] is
    decoded. *)
Definition sample_str (v : pyval) : string :=
  match v with VStr s => s | VObj name => name | _ => "" end.
Definition sample_dumps_ok (v : pyval) : bool :=
  match v with VObj _ => false | _ => true end.
Definition sample_loads (s : string) : option pyval :=
  if bool_decide (s = "{}") then Some (VDict []) else None.

Definition platform_with (t : nat → Call → TransportResult) : Platform :=
  {| default_headers := sample_headers; py_str := sample_str;
     orjson_dumps_ok := sample_dumps_ok; orjson_loads := sample_loads;
     json_loads := sample_loads; transport := t;
     cookies_after := λ _ c, cookies (call_session c) |}.

(** Every dispatch fails to connect. *)
Definition refusing : Platform :=
  platform_with (λ _ _, TRaise (RequestException "ConnectionError")).

(** Every dispatch is answered 200 with a body that is not JSON. *)
Definition not_json_response : Response :=
  {| status_code := 200; text := "{not json"; url_ := "http://example.com/";
     headers_ := ∅; cookies_ := [] |}.
Definition garbling : Platform :=
  platform_with (λ _ _, TResponse not_json_response).

Definition empty_world : World :=
  {| events := []; debug_id := 0; debug_store := ∅; files := ∅; clock := 1700000000 |}.

(** [Http("Mozilla/5.0", "")] as the body of [__init__] leaves it, with the
    given collaborators. *)
Definition sample_client (lg : option Logger) (dbg : option Debugger) : Http :=
  {| user_agent := "Mozilla/5.0"; proxy_url := ""; logger := lg; timeout := 30;
     debugger := dbg;
     client := {| headers := ci_set "User-Agent" (VStr "Mozilla/5.0") sample_headers;
                  cookies := ∅; proxies := ∅ |};
     data := None |}.

(** A fetcher around a sample client that has the fetcher's logger. *)
Definition sample_fetcher : SmartHTTP :=
  {| file_user_agent := "ua.txt"; file_proxy_url := "proxy.txt";
     smart_logger := LoggerRef; smart_timeout := 30; smart_debugger := None;
     list_ua := ["Mozilla/5.0 (X11)"; "Mozilla/5.0 (Mac)"; "Mozilla/5.0 (Win)"];
     list_px := ["http://10.0.0.1:8080"; "http://10.0.0.2:8080"];
     http := sample_client (Some LoggerRef) None |}.

(** The [timeout] options of the calls dispatched so far. *)
Definition dispatched_timeouts (w : World) : list (option pyval) :=
  omap (λ e, match e with
             | Dispatched c => Some (call_kwargs c !! "timeout")
             | _ => None
             end) (events w).

(** Every dispatch is answered 200 with the body ["{}"]. *)
Definition ok_response : Response :=
  {| status_code := 200; text := "{}"; url_ := "http://example.com/";
     headers_ := ∅; cookies_ := [] |}.
Definition answering : Platform :=
  platform_with (λ _ _, TResponse ok_response).

(** The first [k] dispatches are answered 404, the later ones 200. *)
Definition missing_response : Response :=
  {| status_code := 404; text := "not found"; url_ := "http://example.com/";
     headers_ := ∅; cookies_ := [] |}.
Definition flaky (k : nat) : Platform :=
  platform_with (λ n _, if (n <? k)%nat then TResponse missing_response
                        else TResponse ok_response).

(** Every dispatch dies on an error that is no [RequestException]. *)
Definition crashing : Platform :=
  platform_with (λ _ _, TRaise (OtherError "ValueError")).

(** Every dispatch is answered 404. *)
Definition missing : Platform :=
  platform_with (λ _ _, TResponse missing_response).

(** Every dispatch is answered 404 with a session cookie for the host,
    which the session keeps. *)
Definition session_cookie : Cookie :=
  {| cookie_domain := "example.com"; cookie_path := "/";
     cookie_name := "sid"; cookie_value := Some "abc" |}.
Definition tracking_response : Response :=
  {| status_code := 404; text := "not found"; url_ := "http://example.com/";
     headers_ := <["Set-Cookie" := "sid=abc; Path=/"]> ∅;
     cookies_ := jar_set_cookie session_cookie [] |}.
Definition tracking : Platform :=
  {| default_headers := sample_headers; py_str := sample_str;
     orjson_dumps_ok := sample_dumps_ok; orjson_loads := sample_loads;
     json_loads := sample_loads;
     transport := λ _ _, TResponse tracking_response;
     cookies_after := λ _ c, jar_set_cookie session_cookie (cookies (call_session c)) |}.

(** A world holding the two identity sources. *)
Definition identity_world : World :=
  {| events := []; debug_id := 0; debug_store := ∅;
     files := <["ua.txt" := TextFile ["Mozilla/5.0 (X11)"; "curl/8.0"]]>
                (<["proxy.txt" := TextFile ["# proxies"; "http://10.0.0.1:8080"]]> ∅);
     clock := 1700000000 |}.

(** ** src/config.py *)

(** A [pathlib.Path] as the sequence of its parts; [p / name] with a
    relative one-part [name] appends it. *)
Abbreviation Path := (list string).
Definition path_join (p : Path) (name : string) : Path := (p ++ [name])%list.

(** The attributes [dir_dat] reads through [self]: the class sets
    [private = False] and [dir_app = Path(__file__).parent]; an instance or
    subclass may override either. *)
Record Config : Type := {
  private : bool;
  dir_app : Path
}.

(** The class as written, for a module that lives in directory [here]. *)
Definition Config_class (here : Path) : Config :=
  {| private := false; dir_app := here |}.

(** The class-level directories: each is computed once, in the class body,
    from the class's own [dir_app]. *)
Definition dir_out (here : Path) : Path := path_join here "out".
Definition dir_debug (here : Path) : Path := path_join (dir_out here) "debug".
Definition dir_log (here : Path) : Path := path_join (dir_out here) "log".
Definition dir_tmp (here : Path) : Path := path_join (dir_out here) "tmp".

(** The property [Config.dir_dat]. *)
Definition dir_dat (self : Config) : Path :=
  let dir_app := path_join (dir_app self) "dat" in
  if private self then path_join dir_app "private" else dir_app.

(** * Properties *)

Section Properties.

Context {platform : Platform}.

Lemma ci_get_set key k v d :
  ci_get key (ci_set k v d) =
  if bool_decide (lower k = lower key) then Some v else ci_get key d.
Proof.
  unfold ci_get, ci_set. case_bool_decide as E.
  - rewrite E, lookup_insert_eq. done.
  - rewrite lookup_insert_ne; done.
Qed.

Lemma ci_get_del key k d :
  ci_get key (ci_del k d) =
  if bool_decide (lower k = lower key) then None else ci_get key d.
Proof.
  unfold ci_get, ci_del. case_bool_decide as E.
  - rewrite E, lookup_delete_eq. done.
  - rewrite lookup_delete_ne; done.
Qed.

Lemma ci_contains_get key d :
  ci_contains key d = attached (ci_get key d).
Proof.
  unfold ci_contains, ci_get. destruct (d !! lower key) as [[? ?]|].
  - apply bool_decide_eq_true_2. eauto.
  - apply bool_decide_eq_false_2. intros [? ?]. discriminate.
Qed.

Lemma header_set_get key k v h :
  ci_get key (headers (client (header_set_ k v h))) =
  if bool_decide (lower k = lower key)
  then (if is_not_none v then Some v else None)
  else ci_get key (headers (client h)).
Proof.
  unfold header_set_. destruct (is_not_none v); simpl.
  - apply ci_get_set.
  - rewrite ci_contains_get.
    destruct (ci_get k (headers (client h))) eqn:Ek; simpl.
    + apply ci_get_del.
    + case_bool_decide as E; [|done].
      unfold ci_get in *. rewrite <- E. done.
Qed.

Lemma header_get_lookup key h v :
  key ≠ "" → ci_get key (headers (client h)) = Some v → truthy v = true →
  header_get key h = v.
Proof.
  intros Hk Hv Ht. unfold header_get.
  rewrite bool_decide_eq_false_2 by done.
  rewrite ci_contains_get, Hv. simpl. by rewrite Ht.
Qed.

Lemma Http_init_nonempty (ua px : string) (t : Z)
    (lg : option Logger) (dbg : option Debugger) :
  ua ≠ "" → ∃ h, Http_init ua px t lg dbg = Ok h ∧ logger h = lg.
Proof.
  intros Hua. unfold Http_init. destruct ua as [|c ua]; [done|]. simpl. eauto.
Qed.

(** C5. Constructing an [Http] client succeeds exactly when the user agent
    is not empty: a client that was built has a non-empty user agent and
    [header_get "User-Agent"] returns exactly that string; a construction
    that failed was given the empty user agent and failed on the assertion
    (the spec's InvalidIdentity). *)
Theorem Http_init_user_agent (ua px : string) (t : Z)
    (lg : option Logger) (dbg : option Debugger) :
  match Http_init ua px t lg dbg with
  | Ok h => ua ≠ "" ∧ header_get "User-Agent" h = VStr ua
  | Err e => ua = "" ∧ e = AssertionError
  end.
Proof.
  unfold Http_init. destruct ua as [|c ua]; simpl; [done|].
  split; [done|].
  apply header_get_lookup; [done| |done].
  destruct (negb (px =? "")%string); simpl; by rewrite ci_get_set.
Qed.

Lemma for_each_header_set items h w :
  for_each items (λ kv, header_set kv.1 kv.2) (h, w) =
  Return tt (foldl (λ h kv, header_set_ kv.1 kv.2 h) h items, w).
Proof.
  revert h. induction items as [|[k v] items IH]; intros h; [done|].
  simpl. unfold mbind, M_bind. simpl. apply IH.
Qed.

Lemma header_fold_get key items h :
  ci_get key (headers (client (foldl (λ h kv, header_set_ kv.1 kv.2 h) h items))) =
  match last_entry key items with
  | Some v => if is_not_none v then Some v else None
  | None => ci_get key (headers (client h))
  end.
Proof.
  revert h. induction items as [|[k v] items IH]; intros h; [done|].
  simpl. rewrite IH. destruct (last_entry key items); [done|].
  rewrite header_set_get. by case_bool_decide.
Qed.

(** The state [prepare_headers] leaves behind, whether or not it raised on
    a [headers] option that is no dict. *)
Lemma prepare_headers_state kwargs h w :
  state_of (prepare_headers kwargs (h, w)) =
  (foldl (λ h kv, header_set_ kv.1 kv.2 h)
     (if is_not_none (kwargs_get "json" kwargs)
      then header_set_ "Content-Type" (VStr json_content_type) h
      else if is_not_none (kwargs_get "data" kwargs)
      then header_set_ "Content-Type" (VStr form_content_type) h
      else h)
     (explicit_headers kwargs), w).
Proof.
  unfold prepare_headers, explicit_headers, mbind, M_bind.
  destruct (is_not_none (kwargs_get "json" kwargs)); simpl;
    [|destruct (is_not_none (kwargs_get "data" kwargs)); simpl];
    (destruct (kwargs_get "headers" kwargs); simpl; try done;
     unfold mbind, M_bind; simpl; by rewrite for_each_header_set).
Qed.

(** C6. After [prepare_headers], whatever the option bag: with a JSON
    payload (a [json] option that is not None) and no explicit Content-Type
    entry, Content-Type is the JSON content type; with no JSON payload, a
    generic payload (a [data] option that is not None) and no explicit
    Content-Type entry, it is the form-encoded content type; and every
    header named by an explicit entry holds the value of its last entry
    (an entry with value None removes the header), Content-Type included,
    so explicit entries win over both presets. *)
Theorem prepare_headers_content_type (kwargs : gmap string pyval) (s : Http * World) :
  let s' := state_of (prepare_headers kwargs s) in
  (is_not_none (kwargs_get "json" kwargs) = true →
   last_entry "Content-Type" (explicit_headers kwargs) = None →
   header_get "Content-Type" s'.1 = VStr json_content_type)
  ∧ (kwargs_get "json" kwargs = VNone →
     is_not_none (kwargs_get "data" kwargs) = true →
     last_entry "Content-Type" (explicit_headers kwargs) = None →
     header_get "Content-Type" s'.1 = VStr form_content_type)
  ∧ (∀ key value,
       last_entry key (explicit_headers kwargs) = Some value →
       ci_get key (headers (client s'.1)) =
       if is_not_none value then Some value else None).
Proof.
  destruct s as [h w]. simpl. rewrite prepare_headers_state. simpl.
  split; [|split].
  - intros Hj Hx. rewrite Hj.
    apply header_get_lookup; [done| |done].
    by rewrite header_fold_get, Hx, header_set_get.
  - intros Hj Hd Hx. rewrite Hj, Hd. simpl.
    apply header_get_lookup; [done| |done].
    by rewrite header_fold_get, Hx, header_set_get.
  - intros key value Hx. by rewrite header_fold_get, Hx.
Qed.

(** *** One pass through [req] *)

Lemma header_set_frame k v h : same_but_headers h (header_set_ k v h).
Proof.
  unfold header_set_, same_but_headers. destruct (is_not_none v); [done|].
  by destruct (ci_contains k (headers (client h))).
Qed.

Lemma same_but_headers_trans h1 h2 h3 :
  same_but_headers h1 h2 → same_but_headers h2 h3 → same_but_headers h1 h3.
Proof.
  unfold same_but_headers. intros (-> & -> & -> & -> & ->) (-> & -> & -> & -> & ->).
  done.
Qed.

Lemma header_fold_frame items h :
  same_but_headers h (foldl (λ h kv, header_set_ kv.1 kv.2 h) h items).
Proof.
  revert h. induction items as [|[k v] items IH]; intros h; [done|].
  simpl. eapply same_but_headers_trans; [apply header_set_frame | apply IH].
Qed.

Lemma prepare_headers_frame kwargs h w :
  (state_of (prepare_headers kwargs (h, w))).2 = w
  ∧ same_but_headers h (state_of (prepare_headers kwargs (h, w))).1.
Proof.
  rewrite prepare_headers_state. simpl. split; [done|].
  eapply same_but_headers_trans; [|apply header_fold_frame].
  destruct (is_not_none (kwargs_get "json" kwargs)); [apply header_set_frame|].
  destruct (is_not_none (kwargs_get "data" kwargs)); [apply header_set_frame|done].
Qed.

Lemma save_req_returns m u debug kwargs s :
  save_req m u debug kwargs s = Return tt (state_of (save_req m u debug kwargs s)).
Proof.
  unfold save_req, mbind, M_bind. simpl.
  by destruct (debug && attached (debugger s.1)).
Qed.

Lemma save_req_state m u debug kwargs h w :
  state_of (save_req m u debug kwargs (h, w)) =
  if debug && attached (debugger h) then
    let d := {| data_req := {| req_time_stamp := clock w; req_method := m;
                               req_url := u; req_params := coerce <$> kwargs;
                               req_headers := ci_items (headers (client h));
                               req_cookies := jar_items_dict (cookies (client h)) |};
                data_res := HttpResponse_default (clock w) |} in
    (set_data d h, Debugger_save d (Debugger_id_add w))
  else (h, w).
Proof.
  unfold save_req, mbind, M_bind. simpl.
  by destruct (debug && attached (debugger h)).
Qed.

Lemma req_run m u debug kwargs h w s1 :
  prepare_headers kwargs (h, w) = Return tt s1 →
  let s2 := state_of (save_req m u debug kwargs s1) in
  let c := {| call_method := m; call_url := u;
              call_kwargs := sent_kwargs s2.1 kwargs;
              call_session := client s2.1 |} in
  let s3 := (after_dispatch (dispatches s2.2) c s2.1, emit (Dispatched c) s2.2) in
  req m u debug kwargs (h, w) =
  match transport (dispatches s2.2) c with
  | TRaise e =>
      if is_RequestException e then (logger_exception e ;; mret None) s3
      else Raise e s3
  | TResponse r =>
      (logger_info (status_code r) (String.length (text r)) (url_ r) ;;
       save_res r debug ;; mret (Some r)) s3
  end.
Proof.
  intros E. simpl. unfold req, try_except, mbind, M_bind.
  rewrite E, save_req_returns.
  destruct (state_of (save_req m u debug kwargs s1)) as [h2 w2] eqn:E2.
  unfold get_state, request, sent_kwargs. simpl.
  destruct (truthy (kwargs_get "timeout" kwargs)); simpl;
    (match goal with |- context [transport ?n ?c] => destruct (transport n c) as [r|e] end).
  all: try by destruct (is_RequestException e).
  all: unfold logger_info, save_res, mbind, M_bind, get_state; simpl.
  all: destruct (logger h2); simpl; [|done].
  all: destruct (debug && attached (debugger h2)); simpl; [|done].
  all: by destruct (data h2).
Qed.

Lemma prepare_headers_reached kwargs h w s1 :
  prepare_headers kwargs (h, w) = Return tt s1 →
  s1.2 = w ∧ same_but_headers h s1.1.
Proof.
  intros E. pose proof (prepare_headers_frame kwargs h w) as Hf.
  by rewrite E in Hf.
Qed.

(** The amended C8. Whenever [req] reaches the dispatch, the first thing it
    does to the world is to dispatch one call, and that call carries the
    caller's option bag unchanged when its [timeout] option is truthy, and
    the bag with [timeout] set to the session default when the option is
    absent or falsy (None, 0, False, empty). *)
Theorem req_timeout_default (m u : string) (debug : bool)
    (kwargs : gmap string pyval) (h : Http) (w : World) (s1 : Http * World) :
  prepare_headers kwargs (h, w) = Return tt s1 →
  ∃ (c : Call) (rest : list Event),
    events (state_of (req m u debug kwargs (h, w))).2
    = (events w ++ Dispatched c :: rest)%list
    ∧ call_kwargs c =
      if truthy (kwargs_get "timeout" kwargs) then kwargs
      else <["timeout" := VInt (timeout h)]> kwargs.
Proof.
  intros E.
  destruct (prepare_headers_reached _ _ _ _ E) as [Ew (_ & Etime & _)].
  destruct s1 as [h1 w1]. simpl in *. subst w1.
  rewrite (req_run _ _ _ _ _ _ _ E), save_req_state.
  set (s2 := if debug && attached (debugger h1) then _ else _).
  assert (events s2.2 = events w ∧ timeout s2.1 = timeout h) as [Eev Et].
  { subst s2. by destruct (debug && attached (debugger h1)). }
  destruct s2 as [h2 w2]. simpl in *.
  match goal with |- context [transport ?n ?c] =>
    exists c; destruct (transport n c) as [r|e] end.
  - unfold logger_info, save_res, mbind, M_bind, get_state. simpl.
    destruct (logger h2); simpl;
      [|exists []; rewrite Eev; unfold sent_kwargs; by rewrite Et].
    exists [Logged (LogInfo (status_code r) (String.length (text r)) (url_ r))].
    split; [|unfold sent_kwargs; by rewrite Et].
    destruct (debug && attached (debugger h2)); simpl;
      [destruct (data h2); simpl|]; by rewrite Eev, <- app_assoc.
  - destruct (is_RequestException e); simpl;
      [|exists []; rewrite Eev; unfold sent_kwargs; by rewrite Et].
    unfold logger_exception, mbind, M_bind, get_state. simpl.
    destruct (logger h2); simpl.
    + exists [Logged (LogException e)].
      rewrite Eev, <- app_assoc. unfold sent_kwargs. by rewrite Et.
    + exists []. rewrite Eev. unfold sent_kwargs. by rewrite Et.
Qed.

Lemma Http_new_defaults (ua px : string) :
  Http_new [("user_agent", AStr ua); ("proxy_url", AStr px)]
  = Http_init ua px 30 None None.
Proof. reflexivity. Qed.

(** With a logger attached, a transport failure is logged and swallowed. *)
Lemma req_swallows_failure m u debug kwargs h w s1 :
  attached (logger h) = true →
  prepare_headers kwargs (h, w) = Return tt s1 →
  (∀ c, ∃ e, transport (dispatches w) c = TRaise e ∧ is_RequestException e = true) →
  ∃ (c : Call) (e : exn) (h' : Http) (w' : World),
    req m u debug kwargs (h, w) = Return None (h', w')
    ∧ events w' = (events w ++ [Dispatched c; Logged (LogException e)])%list.
Proof.
  intros Hl E Ht.
  destruct (prepare_headers_reached _ _ _ _ E) as [Ew (El & _)].
  destruct s1 as [h1 w1]. simpl in *. subst w1.
  rewrite (req_run _ _ _ _ _ _ _ E), save_req_state.
  match goal with |- context [transport ?n ?c] =>
    destruct (Ht c) as (e & He & Hre); exists c, e;
    replace (transport n c) with (TRaise e)
      by (rewrite <- He; by destruct (debug && attached (debugger h1)))
  end.
  rewrite Hre. unfold logger_exception, mbind, M_bind, get_state. simpl.
  destruct (debug && attached (debugger h1)); simpl; rewrite El;
    (destruct (logger h); [|done]); simpl;
    eexists _, _; (split; [reflexivity|]); simpl; by rewrite <- app_assoc.
Qed.

(** With a logger attached, an answer is logged and returned. *)
Lemma req_returns_answer (P : Response → Prop) m u debug kwargs h w s1 :
  attached (logger h) = true →
  prepare_headers kwargs (h, w) = Return tt s1 →
  (∀ c, ∃ r, transport (dispatches w) c = TResponse r ∧ P r) →
  ∃ (c : Call) (r : Response) (h' : Http) (w' : World),
    req m u debug kwargs (h, w) = Return (Some r) (h', w')
    ∧ P r
    ∧ events w' = (events w ++ [Dispatched c;
         Logged (LogInfo (status_code r) (String.length (text r)) (url_ r))])%list
    ∧ logger h' = logger h.
Proof.
  intros Hl E Ht.
  destruct (prepare_headers_reached _ _ _ _ E) as [Ew (El & _)].
  destruct s1 as [h1 w1]. simpl in *. subst w1.
  rewrite (req_run _ _ _ _ _ _ _ E), save_req_state.
  match goal with |- context [transport ?n ?c] =>
    destruct (Ht c) as (r & Hr & HP); exists c, r;
    replace (transport n c) with (TResponse r)
      by (rewrite <- Hr; by destruct (debug && attached (debugger h1)))
  end.
  unfold logger_info, save_res, mbind, M_bind, get_state. simpl.
  destruct (debug && attached (debugger h1)) eqn:Edb; simpl; rewrite El;
    (destruct (logger h); [|done]); simpl; rewrite ?Edb; simpl;
    eexists _, _; (split; [reflexivity|]); simpl;
    rewrite <- ?app_assoc; split_and!; done.
Qed.

Lemma prepare_headers_empty h w : prepare_headers ∅ (h, w) = Return tt (h, w).
Proof. reflexivity. Qed.

(** C10. A client can be built without a logger: left out of the call, it
    defaults to None.  On such a client every [req] that gets as far as the
    dispatch raises AttributeError, whether the transport answers (the info
    line) or fails with a RequestException (the exception line): [req]
    returns neither a response nor None. *)
Theorem req_without_logger_raises :
  (∀ ua px : string, ua ≠ "" →
     ∃ h, Http_new [("user_agent", AStr ua); ("proxy_url", AStr px)] = Ok h
          ∧ logger h = None)
  ∧ (∀ (m u : string) (debug : bool) (kwargs : gmap string pyval)
       (h : Http) (w : World) (s1 : Http * World),
       logger h = None →
       prepare_headers kwargs (h, w) = Return tt s1 →
       (∀ n c, match transport n c with
               | TResponse _ => True
               | TRaise e => is_RequestException e = true
               end) →
       ∃ msg s', req m u debug kwargs (h, w) = Raise (AttributeError msg) s').
Proof.
  split.
  - intros ua px Hua. rewrite Http_new_defaults.
    pose proof (Http_init_nonempty ua px 30 None None Hua) as [h [E Hl]].
    eauto.
  - intros m u debug kwargs h w s1 Hl E Ht.
    destruct (prepare_headers_reached _ _ _ _ E) as [Ew (El & _)].
    rewrite (req_run _ _ _ _ _ _ _ E). destruct s1 as [h1 w1]. simpl in El.
    match goal with |- context [transport ?n ?c] =>
      specialize (Ht n c); destruct (transport n c) as [r|e] end.
    + unfold logger_info, mbind, M_bind, get_state. simpl.
      rewrite save_req_state.
      destruct (debug && attached (debugger h1)); simpl; rewrite El, Hl; eauto.
    + rewrite Ht. unfold logger_exception, mbind, M_bind, get_state. simpl.
      rewrite save_req_state.
      destruct (debug && attached (debugger h1)); simpl; rewrite El, Hl; eauto.
Qed.

(** *** The fetcher *)

Lemma dispatches_events w w' (evs : list Event) :
  events w' = (events w ++ evs)%list →
  dispatches w' = (dispatches w + length (filter is_dispatch evs))%nat
  ∧ sleeps w' = (sleeps w + length (filter is_sleep evs))%nat.
Proof.
  intros E. unfold dispatches, sleeps.
  by rewrite E, !filter_app, !length_app.
Qed.

Lemma new_http_raises t lg dbg ua px :
  new_http t lg dbg ua px
  = Err (TypeError "got an unexpected keyword argument 'timeou'").
Proof. reflexivity. Qed.

Lemma choice_nonempty (x : string) (l : list string) (r : nat) :
  ∃ y, choice (x :: l) r = Ok y ∧ y ∈ x :: l.
Proof.
  unfold choice.
  destruct (lookup_lt_is_Some_2 (x :: l) (r mod length (x :: l))%nat) as [y Hy].
  { apply Nat.mod_upper_bound. done. }
  rewrite Hy. exists y. split; [done|]. by eapply list_elem_of_lookup_2.
Qed.

(** [SmartHTTP.__init__] builds its default client through [new_http], so
    no construction completes. *)
Lemma SmartHTTP_init_raises fua fpx lg t dbg w :
  ∃ e, SmartHTTP_init fua fpx lg t dbg w = Err e.
Proof.
  unfold SmartHTTP_init, load_user_agent, load_proxy, default_http, mbind, result_bind.
  destruct (IO_load_line fua "Mozilla" w) as [uas|]; [|eauto].
  destruct (IO_load_line fpx "http" w) as [pxs|]; [|eauto].
  destruct uas; simpl; [eauto|]. destruct pxs; simpl; eauto.
Qed.

(** C4, at the code. [rnd_http] never returns a client: with both lists
    non-empty, whatever the two draws, the call [Http(..., timeou=...)]
    inside [new_http] is rejected with a TypeError for the misspelt
    keyword; with an empty list [choice] raises IndexError before that. *)
Theorem rnd_http_raises (self : SmartHTTP) (r1 r2 : nat) :
  rnd_http self r1 r2 =
  match list_ua self, list_px self with
  | _ :: _, _ :: _ => Err (TypeError "got an unexpected keyword argument 'timeou'")
  | _, _ => Err IndexError
  end.
Proof.
  unfold rnd_http, mbind, result_bind.
  destruct (list_ua self) as [|ua uas]; [reflexivity|].
  destruct (choice_nonempty ua uas r1) as (y & -> & _).
  destruct (list_px self) as [|px pxs].
  - unfold choice. by rewrite lookup_nil.
  - destruct (choice_nonempty px pxs r2) as (z & -> & _). apply new_http_raises.
Qed.

(** The retry loop as it works when the client does hand back a response:
    out of debug mode, with every attempt answered by a response that is not
    ok, [http_get_html] gives up with the empty string after exactly
    [retry] dispatches, each followed by a delay. *)
Lemma http_get_html_loop_exhausts (url : string) (n : nat) :
  ∀ (self : SmartHTTP) (w : World),
    attached (logger (http self)) = true →
    (∀ k c, ∃ r, transport k c = TResponse r ∧ ok r = false) →
    ∃ s', http_get_html_loop url false n (self, w) = Return "" s'
          ∧ dispatches s'.2 = (dispatches w + n)%nat
          ∧ sleeps s'.2 = (sleeps w + n)%nat.
Proof.
  induction n as [|n IH]; intros self w Hl Ht.
  - exists (self, w). simpl. split; [done|]. lia.
  - destruct (req_returns_answer (λ r, ok r = false)
                "GET" url false ∅ (http self) w _ Hl
                (prepare_headers_empty _ _) (Ht _))
      as (c & r & h' & w1 & E & Hok & Ev & El').
    destruct (dispatches_events _ _ _ Ev) as [Ed Es]. simpl in Ed, Es.
    destruct (IH (set_http h' self) (Utils_smart_delay 2 w1)) as (s' & E' & Ed' & Es');
      [simpl; by rewrite El' | done |].
    exists s'. split.
    + simpl. unfold mbind, M_bind, try_except, on_http, zoom, get. simpl.
      rewrite E. simpl. rewrite Hok. simpl.
      unfold smart_delay, modify. simpl. apply E'.
    + destruct (dispatches_events w1 (Utils_smart_delay 2 w1) [Slept 2] eq_refl)
        as [Ed2 Es2]. simpl in Ed2, Es2. lia.
Qed.

(** C1, at the code. On a fetcher whose client has its logger, with every
    dispatch failing on a RequestException and at least one attempt
    allowed: [req] swallows the failure and returns None, and
    [with None as response] raises; [http_get_html] ends in that error
    after one dispatch and no sleep, in debug mode and out of it. *)
Theorem http_get_html_transport_failure (url : string) (debug : bool) (retry : Z)
    (self : SmartHTTP) (w : World) :
  attached (logger (http self)) = true →
  (∀ n c, ∃ e, transport n c = TRaise e ∧ is_RequestException e = true) →
  (0 < retry)%Z →
  ∃ s', http_get_html url debug retry (self, w) = Raise NotContextManager s'
        ∧ dispatches s'.2 = (dispatches w + 1)%nat
        ∧ sleeps s'.2 = sleeps w.
Proof.
  intros Hl Ht Hr. unfold http_get_html.
  destruct (Z.to_nat retry) as [|n] eqn:En; [lia|]. simpl.
  destruct (req_swallows_failure "GET" url debug ∅ (http self) w _ Hl
              (prepare_headers_empty _ _) (Ht _)) as (c & e & h' & w' & E & Ev).
  unfold mbind, M_bind, try_except, on_http, zoom, get. simpl. rewrite E. simpl.
  eexists. split; [reflexivity|]. simpl.
  destruct (dispatches_events _ _ _ Ev) as [-> ->]. simpl. lia.
Qed.

Lemma http_get_json_loop_exhausts (url : string) (n : nat) :
  ∀ (self : SmartHTTP) (w : World),
    attached (logger (http self)) = true →
    (∀ k c, ∃ r, transport k c = TResponse r
                 ∧ (ok r = false ∨ json_loads (text r) = None)) →
    ∃ s', http_get_json_loop url false n (self, w) = Return (VDict []) s'
          ∧ dispatches s'.2 = (dispatches w + n)%nat
          ∧ sleeps s'.2 = (sleeps w + n)%nat.
Proof.
  induction n as [|n IH]; intros self w Hl Ht.
  - exists (self, w). simpl. split; [done|]. lia.
  - destruct (req_returns_answer
                (λ r, ok r = false ∨ json_loads (text r) = None)
                "GET" url false ∅ (http self) w _ Hl
                (prepare_headers_empty _ _) (Ht _))
      as (c & r & h' & w1 & E & HP & Ev & El').
    destruct (dispatches_events _ _ _ Ev) as [Ed Es]. simpl in Ed, Es.
    destruct (IH (set_http h' self) (Utils_smart_delay 2 w1)) as (s' & E' & Ed' & Es');
      [simpl; by rewrite El' | done |].
    exists s'. split.
    + simpl. unfold mbind, M_bind, try_except, on_http, zoom, get. simpl.
      rewrite E. simpl.
      destruct HP as [Hok | Hj].
      * rewrite Hok. simpl. unfold smart_delay, modify. simpl. apply E'.
      * destruct (ok r); simpl; unfold Response_json, mbind, M_bind;
          rewrite ?Hj; simpl; unfold smart_delay, modify; simpl; apply E'.
    + destruct (dispatches_events w1 (Utils_smart_delay 2 w1) [Slept 2] eq_refl)
        as [Ed2 Es2]. simpl in Ed2, Es2. lia.
Qed.

(** The amended C3. On a fetcher whose client has its logger: out of debug
    mode, when every attempt is answered by a response that is not ok or
    whose body is not valid JSON, [http_get_json] returns the empty
    mapping after exactly [retry] dispatches, each followed by a delay; in
    debug mode, an ok response whose body is not valid JSON makes the
    first attempt raise the decode error. *)
Theorem http_get_json_parse_failure (url : string) (retry : Z)
    (self : SmartHTTP) (w : World) :
  attached (logger (http self)) = true →
  ((∀ k c, ∃ r, transport k c = TResponse r
                ∧ (ok r = false ∨ json_loads (text r) = None)) →
   ∃ s', http_get_json url false retry (self, w) = Return (VDict []) s'
         ∧ dispatches s'.2 = (dispatches w + Z.to_nat retry)%nat
         ∧ sleeps s'.2 = (sleeps w + Z.to_nat retry)%nat)
  ∧ ((∀ k c, ∃ r, transport k c = TResponse r
                  ∧ (ok r = true ∧ json_loads (text r) = None)) →
     (0 < retry)%Z →
     ∃ s', http_get_json url true retry (self, w) = Raise JSONDecodeError s'
           ∧ dispatches s'.2 = (dispatches w + 1)%nat
           ∧ sleeps s'.2 = sleeps w).
Proof.
  intros Hl. split.
  - intros Ht.
    destruct (http_get_json_loop_exhausts url (Z.to_nat retry) self w Hl Ht)
      as (s' & E & Hd & Hs).
    by exists s'.
  - intros Ht Hr. unfold http_get_json.
    destruct (Z.to_nat retry) as [|n] eqn:En; [lia|].
    destruct (req_returns_answer
                (λ r, ok r = true ∧ json_loads (text r) = None)
                "GET" url true ∅ (http self) w _ Hl
                (prepare_headers_empty _ _) (Ht _))
      as (c & r & h' & w1 & E & [Hok Hj] & Ev & _).
    simpl. unfold mbind, M_bind, try_except, on_http, zoom, get. simpl.
    rewrite E. simpl. rewrite Hok. unfold Response_json, mbind, M_bind.
    rewrite Hj. simpl. eexists. split; [reflexivity|]. simpl.
    destruct (dispatches_events _ _ _ Ev) as [-> ->]. simpl. lia.
Qed.

(** *** Headers, presets and the constructor *)

Lemma lower_nonempty (k k' : string) : lower k' = lower k → k ≠ "" → k' ≠ "".
Proof. destruct k, k'; simpl; congruence. Qed.

Lemma truthy_not_none (v : pyval) : truthy v = true → is_not_none v = true.
Proof. by destruct v. Qed.

Lemma header_get_absent (key : string) (h : Http) :
  ci_get key (headers (client h)) = None → header_get key h = VStr "".
Proof.
  intros E. unfold header_get. rewrite ci_contains_get, E. simpl.
  by rewrite andb_false_r.
Qed.

(** X1. Setting a header and then setting it to None removes it: under
    every spelling of the name that differs only in case, [header_get]
    answers the empty string afterwards, whatever was stored before. *)
Theorem header_set_then_unset (k k' key : string) (v : pyval) (h : Http) :
  lower k' = lower k → lower key = lower k →
  header_get key (header_set_ k' VNone (header_set_ k v h)) = VStr "".
Proof.
  intros Ek' Ekey. apply header_get_absent.
  rewrite header_set_get. by rewrite bool_decide_eq_true_2 by congruence.
Qed.

(** X2. A truthy value stored under a non-empty name is read back by
    [header_get] under any spelling that differs only in case, and storing
    or removing a header changes the answer for no other name.  Case is
    what [str.lower()] folds on characters below U+0100: A-Z and the
    accented capitals. *)
Theorem header_set_get_round_trip (k : string) (v : pyval) (h : Http) :
  (∀ key, k ≠ "" → truthy v = true → lower key = lower k →
          header_get key (header_set_ k v h) = v)
  ∧ (∀ key, lower key ≠ lower k →
            header_get key (header_set_ k v h) = header_get key h).
Proof.
  split.
  - intros key Hk Hv Ekey. apply header_get_lookup; [| |done].
    + by apply (lower_nonempty k).
    + rewrite header_set_get, bool_decide_eq_true_2 by done.
      by rewrite truthy_not_none.
  - intros key Hne. unfold header_get.
    rewrite !ci_contains_get, header_set_get.
    by rewrite (bool_decide_eq_false_2 (lower k = lower key))
      by (intros E; by apply Hne).
Qed.

Lemma header_set_twice k1 v1 k2 v2 h w :
  state_of ((header_set k1 v1 ;; header_set k2 v2) (h, w))
  = (header_set_ k2 v2 (header_set_ k1 v1 h), w).
Proof. reflexivity. Qed.

(** X3. The two content-type presets overwrite each other, the later call
    winning, each with or without the charset suffix as its flag says, and
    [h_type(None)] clears what a preset stored. *)
Theorem content_type_presets (u1 u2 : bool) (s : Http * World) :
  header_get "Content-Type" (state_of ((h_json u1 ;; h_data u2) s)).1
  = VStr ("application/x-www-form-urlencoded"
          ++ if u2 then "; charset=UTF-8" else "")
  ∧ header_get "Content-Type" (state_of ((h_data u1 ;; h_json u2) s)).1
    = VStr ("application/json" ++ if u2 then "; charset=UTF-8" else "")
  ∧ header_get "Content-Type" (state_of ((h_json u1 ;; h_type VNone) s)).1
    = VStr "".
Proof.
  destruct s as [h w]. unfold h_json, h_data, h_type.
  rewrite !header_set_twice. simpl fst. split_and!.
  - apply header_get_lookup; [done| |by destruct u2].
    rewrite header_set_get. by destruct u2.
  - apply header_get_lookup; [done| |by destruct u2].
    rewrite header_set_get. by destruct u2.
  - apply header_get_absent. by rewrite header_set_get.
Qed.

(** X4. A client that was built has an empty cookie jar and no captured
    data; it routes both schemes through the proxy when one was given and
    has no proxy map otherwise; and apart from User-Agent its headers are
    the defaults of a new session. *)
Theorem Http_init_session (ua px : string) (t : Z) (lg : option Logger)
    (dbg : option Debugger) (h : Http) :
  Http_init ua px t lg dbg = Ok h →
  (px ≠ "" → proxies (client h) !! "http" = Some px
             ∧ proxies (client h) !! "https" = Some px)
  ∧ (px = "" → proxies (client h) = ∅)
  ∧ cookies (client h) = ∅
  ∧ data h = None
  ∧ (∀ key, lower key ≠ "user-agent" →
            ci_get key (headers (client h)) = ci_get key default_headers).
Proof.
  unfold Http_init. destruct ua as [|a ua]; [done|]. simpl.
  intros [= <-]. split_and!.
  - intros Hpx. destruct px as [|p px]; [done|]. simpl.
    by rewrite lookup_insert_eq, lookup_insert_ne, lookup_insert_eq.
  - by intros ->.
  - by destruct px.
  - done.
  - intros key Hkey.
    assert (ci_get key (ci_set "User-Agent" (VStr (String a ua)) default_headers)
            = ci_get key default_headers) as E.
    { rewrite ci_get_set. rewrite bool_decide_eq_false_2; [done|].
      intros E. apply Hkey. by rewrite <- E. }
    by destruct px.
Qed.

(** X5. [default_http] never returns a client: on an empty user-agent or
    proxy list indexing [0] raises IndexError, and otherwise the
    constructor call inside [new_http] is rejected for its misspelt
    keyword. *)
Theorem default_http_raises (t : Z) (lg : Logger) (dbg : option Debugger)
    (uas pxs : list string) :
  default_http t lg dbg uas pxs =
  match uas, pxs with
  | _ :: _, _ :: _ => Err (TypeError "got an unexpected keyword argument 'timeou'")
  | _, _ => Err IndexError
  end.
Proof. destruct uas, pxs; reflexivity. Qed.

(** *** More of [req] *)

Lemma prepare_headers_raises kwargs s e s1 :
  prepare_headers kwargs s = Raise e s1 → e = AttributeError "items".
Proof.
  destruct s as [h w]. unfold prepare_headers, mbind, M_bind.
  destruct (is_not_none (kwargs_get "json" kwargs)); simpl;
    [|destruct (is_not_none (kwargs_get "data" kwargs)); simpl];
    (destruct (kwargs_get "headers" kwargs); simpl; try done;
     try (by intros [= <- _]);
     unfold mbind, M_bind; simpl; by rewrite for_each_header_set).
Qed.

Lemma req_prepare_raises m u debug kwargs s e s1 :
  prepare_headers kwargs s = Raise e s1 →
  req m u debug kwargs s = Raise e s1.
Proof.
  intros E. pose proof (prepare_headers_raises _ _ _ _ E) as ->.
  unfold req, try_except, mbind, M_bind. by rewrite E.
Qed.

(** X6. A [headers] option that is not None and has no [items] method (a
    string, a number, a list, an object that is no mapping: anything but a
    dict or a mapping object) makes [req] raise AttributeError before
    anything leaves the client: the world (trace, recorder, files) is
    exactly as before. *)
Theorem req_bad_headers_option (m u : string) (debug : bool)
    (kwargs : gmap string pyval) (v : pyval) (h : Http) (w : World) :
  kwargs !! "headers" = Some v → v ≠ VNone →
  (∀ items, v ≠ VDict items) → (∀ name items, v ≠ VMapping name items) →
  ∃ h', req m u debug kwargs (h, w) = Raise (AttributeError "items") (h', w).
Proof.
  intros Ev Hn Hd Hm.
  destruct (prepare_headers kwargs (h, w)) as [[] s1|e s1] eqn:E.
  - exfalso. revert E. unfold prepare_headers, mbind, M_bind, kwargs_get.
    rewrite Ev. simpl.
    destruct (is_not_none (default VNone (kwargs !! "json"))); simpl;
      [|destruct (is_not_none (default VNone (kwargs !! "data"))); simpl];
      (destruct v; simpl; try done;
       [by destruct (Hd items) | by destruct (Hm name items)]).
  - rewrite (req_prepare_raises _ _ _ _ _ _ _ E).
    pose proof (prepare_headers_raises _ _ _ _ E) as ->.
    pose proof (prepare_headers_frame kwargs h w) as [Ew _].
    rewrite E in Ew. simpl in Ew. destruct s1 as [h1 w1]. simpl in Ew. subst w1.
    by exists h1.
Qed.

(** X7. Only a [RequestException] is swallowed: when the dispatch raises
    anything else, [req] raises that same error to its caller, and the trace
    gains the dispatch and no log line, logger or not. *)
Theorem req_other_errors_propagate (m u : string) (debug : bool)
    (kwargs : gmap string pyval) (h : Http) (w : World) (s1 : Http * World)
    (e : exn) :
  prepare_headers kwargs (h, w) = Return tt s1 →
  (∀ c, transport (dispatches w) c = TRaise e) →
  is_RequestException e = false →
  ∃ (c : Call) (s' : Http * World),
    req m u debug kwargs (h, w) = Raise e s'
    ∧ events s'.2 = (events w ++ [Dispatched c])%list.
Proof.
  intros E Ht He.
  destruct (prepare_headers_reached _ _ _ _ E) as [Ew _].
  destruct s1 as [h1 w1]. simpl in *. subst w1.
  rewrite (req_run _ _ _ _ _ _ _ E), save_req_state.
  match goal with |- context [transport ?n ?c] =>
    exists c; replace (transport n c) with (TRaise e)
      by (rewrite <- (Ht c); by destruct (debug && attached (debugger h1)))
  end.
  rewrite He. eexists. split; [reflexivity|].
  by destruct (debug && attached (debugger h1)).
Qed.

(** X8. With a logger attached, an answer of any status is returned as it
    is, error statuses included, and the trace gains exactly the dispatch
    and one info line with the status code, the body length and the
    response URL.  The dispatched call carries the method and URL given,
    the option bag with the timeout rule applied, and the session as
    [prepare_headers] left it. *)
Theorem req_answer_returned (m u : string) (debug : bool)
    (kwargs : gmap string pyval) (h : Http) (w : World) (s1 : Http * World)
    (r : Response) :
  attached (logger h) = true →
  prepare_headers kwargs (h, w) = Return tt s1 →
  (∀ c, transport (dispatches w) c = TResponse r) →
  ∃ s', req m u debug kwargs (h, w) = Return (Some r) s'
        ∧ events s'.2 =
          (events w ++
           [Dispatched {| call_method := m; call_url := u;
                          call_kwargs := sent_kwargs h kwargs;
                          call_session := client s1.1 |};
            Logged (LogInfo (status_code r) (String.length (text r)) (url_ r))])%list.
Proof.
  intros Hl E Ht.
  destruct (prepare_headers_reached _ _ _ _ E) as [Ew (El & Et & _)].
  destruct s1 as [h1 w1]. simpl in *. subst w1.
  rewrite (req_run _ _ _ _ _ _ _ E), save_req_state.
  match goal with |- context [transport ?n ?c] =>
    replace (transport n c) with (TResponse r)
      by (rewrite <- (Ht c); by destruct (debug && attached (debugger h1)))
  end.
  unfold logger_info, save_res, mbind, M_bind, get_state. simpl.
  destruct (debug && attached (debugger h1)) eqn:Edb; simpl; rewrite El;
    (destruct (logger h); [|done]); simpl; rewrite ?Edb; simpl;
    (eexists; split; [reflexivity|]); simpl;
    rewrite <- ?app_assoc; unfold sent_kwargs; simpl; by rewrite Et.
Qed.

(** The session headers after [req] are the ones [prepare_headers] left. *)
Lemma req_client m u debug kwargs h w :
  headers (client (state_of (req m u debug kwargs (h, w))).1)
  = headers (client (state_of (prepare_headers kwargs (h, w))).1).
Proof.
  destruct (prepare_headers kwargs (h, w)) as [[] s1|e s1] eqn:E.
  - rewrite (req_run _ _ _ _ _ _ _ E). destruct s1 as [h1 w1].
    rewrite save_req_state. simpl.
    match goal with |- context [transport ?n ?c] =>
      destruct (transport n c) as [r|e] end.
    + unfold logger_info, save_res, mbind, M_bind, get_state. simpl.
      destruct (debug && attached (debugger h1)) eqn:Edb; simpl;
        (destruct (logger h1); [|done]); simpl; by rewrite ?Edb.
    + destruct (is_RequestException e); simpl;
        [unfold logger_exception, mbind, M_bind, get_state; simpl|];
        destruct (debug && attached (debugger h1)); simpl; try done;
        by destruct (logger h1).
  - by rewrite (req_prepare_raises _ _ _ _ _ _ _ E).
Qed.

Lemma header_get_client key h h' :
  headers (client h) = headers (client h') → header_get key h = header_get key h'.
Proof. unfold header_get. by intros ->. Qed.

(** X9. The content type a call's payload selected stays on the session:
    after a [req] with a JSON payload and no explicit Content-Type entry,
    however that call ended, a following [req] with an empty option bag
    still leaves the session's Content-Type at the JSON content type. *)
Theorem req_content_type_persists (m u m' u' : string) (debug debug' : bool)
    (kwargs : gmap string pyval) (h : Http) (w : World) :
  is_not_none (kwargs_get "json" kwargs) = true →
  last_entry "Content-Type" (explicit_headers kwargs) = None →
  header_get "Content-Type"
    (state_of (req m' u' debug' ∅ (state_of (req m u debug kwargs (h, w))))).1
  = VStr json_content_type.
Proof.
  intros Hj Hx.
  destruct (state_of (req m u debug kwargs (h, w))) as [h1 w1] eqn:E1.
  rewrite (header_get_client _ _ h1)
    by (rewrite req_client; by rewrite prepare_headers_empty).
  replace h1 with (state_of (req m u debug kwargs (h, w))).1 by by rewrite E1.
  rewrite (header_get_client _ _ (state_of (prepare_headers kwargs (h, w))).1)
    by apply req_client.
  rewrite prepare_headers_state. simpl. rewrite Hj.
  apply header_get_lookup; [done| |done].
  by rewrite header_fold_get, Hx, header_set_get.
Qed.

(** X10. With debugging off for the call, or no recorder on the client,
    [req] leaves the recorder alone, however the call ends: the debug id,
    the stored records and the client's captured data stay as they were. *)
Theorem req_without_debugging (m u : string) (debug : bool)
    (kwargs : gmap string pyval) (h : Http) (w : World) :
  debug = false ∨ debugger h = None →
  let s' := state_of (req m u debug kwargs (h, w)) in
  debug_id s'.2 = debug_id w
  ∧ debug_store s'.2 = debug_store w
  ∧ data s'.1 = data h.
Proof.
  intros Hoff. simpl.
  pose proof (prepare_headers_frame kwargs h w) as [Ew (_ & _ & Ed & _ & Eda)].
  destruct (prepare_headers kwargs (h, w)) as [[] s1|e s1] eqn:E.
  - destruct s1 as [h1 w1]. simpl in *. subst w1.
    assert (debug && attached (debugger h1) = false) as Eoff.
    { rewrite Ed. destruct Hoff as [-> | ->]; [done|]. by rewrite andb_false_r. }
    rewrite (req_run _ _ _ _ _ _ _ E), save_req_state, Eoff. simpl.
    match goal with |- context [transport ?n ?c] =>
      destruct (transport n c) as [r|e] end.
    + unfold logger_info, save_res, mbind, M_bind, get_state. simpl.
      destruct (logger h1); simpl; [|done]. by rewrite Eoff.
    + destruct (is_RequestException e); simpl; [|done].
      unfold logger_exception, mbind, M_bind, get_state. simpl.
      by destruct (logger h1).
  - rewrite (req_prepare_raises _ _ _ _ _ _ _ E). simpl in *. by subst.
Qed.

(** *** More of the fetcher *)

Lemma dispatches_after_attempt (w w1 : World) (c : Call) (l : LogLine) :
  events w1 = (events w ++ [Dispatched c; Logged l])%list →
  dispatches (Utils_smart_delay 2 w1) = S (dispatches w)
  ∧ sleeps (Utils_smart_delay 2 w1) = S (sleeps w)
  ∧ dispatches w1 = S (dispatches w) ∧ sleeps w1 = sleeps w.
Proof.
  intros Ev.
  destruct (dispatches_events _ _ _ Ev) as [Ed Es]. simpl in Ed, Es.
  destruct (dispatches_events w1 (Utils_smart_delay 2 w1) [Slept 2] eq_refl)
    as [Ed2 Es2]. simpl in Ed2, Es2. lia.
Qed.

Lemma http_get_html_loop_short_circuits (url : string) (debug : bool)
    (r : Response) (k : nat) :
  ∀ (n : nat) (self : SmartHTTP) (w : World),
    attached (logger (http self)) = true →
    (k < n)%nat →
    (∀ i c, (i < k)%nat →
            ∃ r', transport (dispatches w + i) c = TResponse r' ∧ ok r' = false) →
    (∀ c, transport (dispatches w + k) c = TResponse r) →
    ok r = true →
    ∃ s', http_get_html_loop url debug n (self, w) = Return (text r) s'
          ∧ dispatches s'.2 = (dispatches w + k + 1)%nat
          ∧ sleeps s'.2 = (sleeps w + k)%nat.
Proof.
  induction k as [|k IH]; intros n self w Hl Hn Hbad Hgood Hok;
    (destruct n as [|n]; [lia|]).
  - rewrite Nat.add_0_r in Hgood.
    destruct (req_returns_answer (λ r', r' = r) "GET" url debug ∅ (http self) w _ Hl
                (prepare_headers_empty _ _) (λ c, ex_intro _ r (conj (Hgood c) eq_refl)))
      as (c & r' & h' & w1 & E & -> & Ev & ?).
    simpl. unfold mbind, M_bind, try_except, on_http, zoom, get. simpl.
    rewrite E. simpl. rewrite Hok. simpl.
    eexists. split; [reflexivity|]. simpl.
    destruct (dispatches_events _ _ _ Ev) as [-> ->]. simpl. lia.
  - assert (∀ c, ∃ r', transport (dispatches w) c = TResponse r' ∧ ok r' = false)
      as Hfirst.
    { intros c. destruct (Hbad 0%nat c) as (r' & Hr' & Hok'); [lia|].
      rewrite Nat.add_0_r in Hr'. eauto. }
    destruct (req_returns_answer (λ r', ok r' = false) "GET" url debug ∅
                (http self) w _ Hl (prepare_headers_empty _ _) Hfirst)
      as (c & r' & h' & w1 & E & Hok' & Ev & El').
    destruct (dispatches_after_attempt _ _ _ _ Ev) as (Ed & Es & _).
    destruct (IH n (set_http h' self) (Utils_smart_delay 2 w1)) as (s' & E' & Hd' & Hs').
    + simpl. by rewrite El'.
    + lia.
    + intros i c0 Hi. rewrite Ed.
      destruct (Hbad (S i) c0) as (r0 & Hr0 & Hok0); [lia|].
      exists r0. split; [|done]. rewrite <- Hr0. f_equal. lia.
    + intros c0. rewrite Ed. rewrite <- (Hgood c0). f_equal. lia.
    + done.
    + exists s'. split.
      * simpl. unfold mbind, M_bind, try_except, on_http, zoom, get. simpl.
        rewrite E. simpl. rewrite Hok'. simpl.
        unfold smart_delay, modify. simpl. apply E'.
      * lia.
Qed.

(** X14. Success short-circuits the retries: on a fetcher whose client has
    its logger, when the next [k] dispatches are answered by responses that
    are not ok, the one after by an ok response, and more than [k] attempts
    are allowed, [http_get_html] returns that response's text after exactly
    [k + 1] dispatches and [k] delays, in debug mode and out of it. *)
Theorem http_get_html_short_circuits (url : string) (debug : bool) (retry : Z)
    (r : Response) (k : nat) (self : SmartHTTP) (w : World) :
  attached (logger (http self)) = true →
  (Z.of_nat k < retry)%Z →
  (∀ i c, (i < k)%nat →
          ∃ r', transport (dispatches w + i) c = TResponse r' ∧ ok r' = false) →
  (∀ c, transport (dispatches w + k) c = TResponse r) →
  ok r = true →
  ∃ s', http_get_html url debug retry (self, w) = Return (text r) s'
        ∧ dispatches s'.2 = (dispatches w + k + 1)%nat
        ∧ sleeps s'.2 = (sleeps w + k)%nat.
Proof.
  intros Hl Hk Hbad Hgood Hok. unfold http_get_html.
  apply http_get_html_loop_short_circuits; try done. lia.
Qed.

(** X15. [http_get_json] hands back what the body decodes to: on a fetcher
    whose client has its logger, with at least one attempt allowed, an ok
    response whose text decodes to [v] makes the first attempt return [v],
    after one dispatch and no delay. *)
Theorem http_get_json_returns_decoded (url : string) (debug : bool) (retry : Z)
    (r : Response) (v : pyval) (self : SmartHTTP) (w : World) :
  attached (logger (http self)) = true →
  (0 < retry)%Z →
  (∀ c, transport (dispatches w) c = TResponse r) →
  ok r = true →
  json_loads (text r) = Some v →
  ∃ s', http_get_json url debug retry (self, w) = Return v s'
        ∧ dispatches s'.2 = (dispatches w + 1)%nat
        ∧ sleeps s'.2 = sleeps w.
Proof.
  intros Hl Hr Ht Hok Hv. unfold http_get_json.
  destruct (Z.to_nat retry) as [|n] eqn:En; [lia|].
  destruct (req_returns_answer (λ r', r' = r) "GET" url debug ∅ (http self) w _ Hl
              (prepare_headers_empty _ _) (λ c, ex_intro _ r (conj (Ht c) eq_refl)))
    as (c & r' & h' & w1 & E & -> & Ev & ?).
  simpl. unfold mbind, M_bind, try_except, on_http, zoom, get. simpl.
  rewrite E. simpl. rewrite Hok. unfold Response_json, mbind, M_bind.
  rewrite Hv. simpl. eexists. split; [reflexivity|]. simpl.
  destruct (dispatches_events _ _ _ Ev) as [-> ->]. simpl. lia.
Qed.

(** X16. With [retry] zero or negative no attempt is made: both fetch
    operations return their empty value at once and leave the fetcher and
    the world exactly as they were. *)
Theorem fetch_without_attempts (url : string) (debug : bool) (retry : Z)
    (s : SmartHTTP * World) :
  (retry ≤ 0)%Z →
  http_get_html url debug retry s = Return "" s
  ∧ http_get_json url debug retry s = Return (VDict []) s.
Proof.
  intros Hr. unfold http_get_html, http_get_json.
  replace (Z.to_nat retry) with 0%nat by lia. done.
Qed.

(** X17. Out of debug mode, on a fetcher whose client has its logger, when
    every attempt is answered by a response that is not ok,
    [http_get_html] returns the empty string after exactly [retry]
    dispatches and as many delays (one follows the last attempt too). *)
Theorem http_get_html_exhausts (url : string) (retry : Z)
    (self : SmartHTTP) (w : World) :
  attached (logger (http self)) = true →
  (∀ k c, ∃ r, transport k c = TResponse r ∧ ok r = false) →
  ∃ s', http_get_html url false retry (self, w) = Return "" s'
        ∧ dispatches s'.2 = (dispatches w + Z.to_nat retry)%nat
        ∧ sleeps s'.2 = (sleeps w + Z.to_nat retry)%nat.
Proof.
  intros Hl Ht. by apply http_get_html_loop_exhausts.
Qed.

(** X18. An error of the transport that is no [RequestException] is not
    retried: with at least one attempt allowed, both fetch operations raise
    it from the first attempt, after one dispatch and no delay, in debug
    mode and out of it, logger or not. *)
Theorem fetch_other_errors_propagate (url : string) (debug : bool) (retry : Z)
    (e : exn) (self : SmartHTTP) (w : World) :
  (0 < retry)%Z →
  (∀ c, transport (dispatches w) c = TRaise e) →
  is_RequestException e = false →
  (∃ s', http_get_html url debug retry (self, w) = Raise e s'
         ∧ dispatches s'.2 = (dispatches w + 1)%nat ∧ sleeps s'.2 = sleeps w)
  ∧ (∃ s', http_get_json url debug retry (self, w) = Raise e s'
           ∧ dispatches s'.2 = (dispatches w + 1)%nat ∧ sleeps s'.2 = sleeps w).
Proof.
  intros Hr Ht He. unfold http_get_html, http_get_json.
  destruct (Z.to_nat retry) as [|n] eqn:En; [lia|].
  assert (∃ h' w', req "GET" url debug ∅ (http self, w) = Raise e (h', w')
                   ∧ dispatches w' = (dispatches w + 1)%nat
                   ∧ sleeps w' = sleeps w) as (h' & w' & E & Hd & Hs).
  { rewrite (req_run _ _ _ _ _ _ _ (prepare_headers_empty _ _)), save_req_state.
    match goal with |- context [transport ?k ?c] =>
      replace (transport k c) with (TRaise e)
        by (rewrite <- (Ht c); by destruct (debug && attached (debugger (http self))))
    end.
    rewrite He.
    destruct (debug && attached (debugger (http self)));
      (eexists _, _; split; [reflexivity|]);
      match goal with |- dispatches (emit (Dispatched ?c) ?w2) = _ ∧ _ =>
        destruct (dispatches_events w (emit (Dispatched c) w2) [Dispatched c] eq_refl)
          as [-> ->]
      end; simpl; lia. }
  split; simpl; unfold mbind, M_bind, try_except, on_http, zoom, get; simpl;
    rewrite E; simpl; rewrite He; by eexists.
Qed.

(** *** Cookies *)

(** Reading an ordered dict after a write or a removal. *)
Lemma od_get_set {V} (k k' : string) (v : V) (d : list (string * V)) :
  od_get k (od_set k' v d) = if decide (k = k') then Some v else od_get k d.
Proof.
  induction d as [|[k0 v0] d IH]; simpl.
  - by destruct (decide (k = k')).
  - destruct (decide (k' = k0)) as [->|Hne]; simpl.
    + by destruct (decide (k = k0)).
    + destruct (decide (k = k0)) as [->|]; [|done].
      by rewrite decide_False by done.
Qed.

Lemma od_get_del_ne {V} (k k' : string) (d : list (string * V)) :
  k ≠ k' → od_get k (od_del k' d) = od_get k d.
Proof.
  intros Hne. induction d as [|[k0 v0] d IH]; simpl; [done|].
  destruct (decide (k' = k0)) as [->|]; simpl.
  - by rewrite decide_False by done.
  - by destruct (decide (k = k0)).
Qed.

Lemma od_get_None {V} (k : string) (d : list (string * V)) :
  od_get k d = None ↔ k ∉ d.*1.
Proof.
  induction d as [|[k0 v0] d IH]; simpl.
  - split; [intros _; apply not_elem_of_nil | done].
  - rewrite not_elem_of_cons. destruct (decide (k = k0)) as [->|Hne].
    + split; [done | by intros [? _]].
    + rewrite IH. split; [done | by intros [_ ?]].
Qed.

Lemma od_get_elem_of {V} (k : string) (v : V) (d : list (string * V)) :
  od_get k d = Some v → (k, v) ∈ d.
Proof.
  induction d as [|[k0 v0] d IH]; simpl; [done|].
  destruct (decide (k = k0)) as [->|]; [intros [= ->]; left | right; auto].
Qed.

Lemma od_get_del_eq {V} (k : string) (d : list (string * V)) :
  NoDup d.*1 → od_get k (od_del k d) = None.
Proof.
  induction d as [|[k0 v0] d IH]; simpl; [done|].
  intros [Hk0 Hd]%NoDup_cons. destruct (decide (k = k0)) as [->|]; simpl.
  - by apply od_get_None.
  - rewrite decide_False by done. auto.
Qed.

Lemma od_set_fresh {V} (k : string) (v : V) (d : list (string * V)) :
  k ∉ d.*1 → od_set k v d = (d ++ [(k, v)])%list.
Proof.
  induction d as [|[k0 v0] d IH]; simpl; [done|].
  rewrite not_elem_of_cons. intros [Hne Hd].
  rewrite decide_False by done. by rewrite IH.
Qed.

Lemma od_del_keys {V} (k : string) (d : list (string * V)) :
  (od_del k d).*1 `sublist_of` d.*1.
Proof.
  induction d as [|[k0 v0] d IH]; simpl; [done|].
  destruct (decide (k = k0)); simpl; [by apply sublist_cons | by apply sublist_skip].
Qed.

(** Lookups in the jar after [set_cookie], [set] and [update]. *)
Lemma jar_lookup_set_cookie (dom p k : string) (c : Cookie) (jar : CookieJar) :
  jar_lookup dom p k (jar_set_cookie c jar) =
  if decide (dom = cookie_domain c ∧ p = cookie_path c ∧ k = cookie_name c)
  then Some (jar_rewrite (cookie_value c)) else jar_lookup dom p k jar.
Proof.
  unfold jar_lookup, jar_set_cookie. rewrite od_get_set.
  destruct (decide (dom = cookie_domain c)) as [->|Hd]; simpl.
  - rewrite od_get_set. destruct (decide (p = cookie_path c)) as [->|Hp]; simpl.
    + rewrite od_get_set. destruct (decide (k = cookie_name c)) as [->|Hk].
      * by rewrite decide_True.
      * rewrite decide_False by tauto.
        destruct (od_get (cookie_domain c) jar) as [c2|]; simpl; [|done].
        by destruct (od_get (cookie_path c) c2).
    + rewrite decide_False by tauto.
      by destruct (od_get (cookie_domain c) jar).
  - by rewrite decide_False by tauto.
Qed.

Lemma jar_lookup_set (dom p k name v : string) (jar : CookieJar) :
  jar_lookup dom p k (jar_set name (Some v) jar) =
  if decide (dom = "" ∧ p = "/" ∧ k = name)
  then Some (jar_rewrite (Some v)) else jar_lookup dom p k jar.
Proof. apply jar_lookup_set_cookie. Qed.

Lemma jar_update_cons (k v : string) (d : list (string * string)) (jar : CookieJar) :
  jar_update ((k, v) :: d) jar = jar_update d (jar_set k (Some v) jar).
Proof. reflexivity. Qed.

Lemma jar_lookup_update_other (dom p k : string) (d : list (string * string))
    (jar : CookieJar) :
  (dom, p) ≠ ("", "/") ∨ k ∉ d.*1 →
  jar_lookup dom p k (jar_update d jar) = jar_lookup dom p k jar.
Proof.
  revert jar. induction d as [|[k0 v0] d IH]; intros jar Hk; [done|].
  rewrite jar_update_cons, IH, jar_lookup_set.
  - apply decide_False. intros (-> & -> & ->).
    destruct Hk as [Hk|Hk]; [done|]. apply Hk. left.
  - destruct Hk as [Hk|Hk]; [by left|]. right.
    by apply not_elem_of_cons in Hk as [_ Hk].
Qed.

Lemma jar_lookup_update (k v : string) (d : list (string * string)) (jar : CookieJar) :
  NoDup d.*1 → (k, v) ∈ d →
  jar_lookup "" "/" k (jar_update d jar) = Some (jar_rewrite (Some v)).
Proof.
  revert jar. induction d as [|[k0 v0] d IH]; intros jar Hnd Hin.
  - by apply elem_of_nil in Hin.
  - apply NoDup_cons in Hnd as [Hk0 Hnd]. rewrite jar_update_cons.
    apply elem_of_cons in Hin as [[= -> ->]|Hin].
    + rewrite jar_lookup_update_other by by right.
      rewrite jar_lookup_set. by rewrite decide_True.
    + by apply IH.
Qed.

(** The jar a client has after loading into an empty jar: one domain, one
    path. *)
Lemma jar_set_single (k v : string) (c3 : list (string * option string)) :
  jar_set k (Some v) [("", [("/", c3)])]
  = [("", [("/", od_set k (jar_rewrite (Some v)) c3)])].
Proof. reflexivity. Qed.

Lemma jar_update_single (d : list (string * string))
    (c3 : list (string * option string)) :
  NoDup (c3.*1 ++ d.*1) →
  jar_update d [("", [("/", c3)])]
  = [("", [("/", c3 ++ ((λ kv, (kv.1, jar_rewrite (Some kv.2))) <$> d))])]%list.
Proof.
  revert c3. induction d as [|[k v] d IH]; intros c3 Hnd.
  - by rewrite app_nil_r.
  - rewrite jar_update_cons, jar_set_single, od_set_fresh.
    + rewrite IH; [by rewrite <- app_assoc|].
      rewrite fmap_app, <- app_assoc. exact Hnd.
    + apply NoDup_app in Hnd as (_ & Hnd & _). intros Hin.
      apply (Hnd k Hin). left.
Qed.

Lemma jar_update_empty (d : list (string * string)) :
  NoDup d.*1 → d ≠ [] →
  jar_update d [] = [("", [("/", (λ kv, (kv.1, jar_rewrite (Some kv.2))) <$> d)])].
Proof.
  destruct d as [|[k v] d]; [done|]. intros Hnd _.
  rewrite jar_update_cons.
  change (jar_set k (Some v) []) with [("", [("/", [(k, jar_rewrite (Some v))])])].
  by rewrite jar_update_single.
Qed.

Lemma jar_cookies_single (c3 : list (string * option string)) :
  jar_cookies [("", [("/", c3)])]
  = (λ nv, {| cookie_domain := ""; cookie_path := "/";
              cookie_name := nv.1; cookie_value := nv.2 |}) <$> c3.
Proof.
  unfold jar_cookies. induction c3 as [|nv c3 IH]; [done|].
  simpl in *. rewrite !app_nil_r in *. by f_equal.
Qed.

Lemma find_loop_absent (name : string) (acc : option string) (cs : list Cookie) :
  name ∉ cookie_name <$> cs → find_loop name acc cs = Ok acc.
Proof.
  induction cs as [|c cs IH]; simpl; [done|].
  rewrite not_elem_of_cons. intros [Hne Hcs].
  rewrite decide_False by done. auto.
Qed.

Lemma find_loop_unique (c : Cookie) (cs : list Cookie) :
  NoDup (cookie_name <$> cs) → c ∈ cs →
  find_loop (cookie_name c) None cs = Ok (cookie_value c).
Proof.
  induction cs as [|c0 cs IH]; simpl; intros Hnd Hin.
  - by apply elem_of_nil in Hin.
  - apply NoDup_cons in Hnd as [Hc0 Hnd].
    apply elem_of_cons in Hin as [->|Hin].
    + rewrite decide_True by done. by apply find_loop_absent.
    + rewrite decide_False; [auto|].
      intros E. apply Hc0. rewrite E. by apply list_elem_of_fmap_2.
Qed.

Lemma dict_from_keys_all (jar : CookieJar) (d acc : list (string * string)) :
  NoDup (acc.*1 ++ d.*1) →
  (∀ k v, (k, v) ∈ d → find_no_duplicates k jar = Ok v) →
  dict_from_keys jar d.*1 acc = Ok (acc ++ d)%list.
Proof.
  revert acc. induction d as [|[k v] d IH]; intros acc Hnd Hfind; simpl.
  - by rewrite app_nil_r.
  - rewrite (Hfind k v) by left. simpl.
    rewrite od_set_fresh.
    + rewrite IH; [by rewrite <- app_assoc| |].
      * rewrite fmap_app, <- app_assoc. exact Hnd.
      * intros k' v' Hin. apply Hfind. by right.
    + apply NoDup_app in Hnd as (_ & Hnd & _). intros Hin.
      apply (Hnd k Hin). left.
Qed.

Lemma jar_cookies_loaded (d : list (string * string)) :
  jar_cookies [("", [("/", (λ kv, (kv.1, Some kv.2)) <$> d)])]
  = (λ kv, {| cookie_domain := ""; cookie_path := "/";
              cookie_name := kv.1; cookie_value := Some kv.2 |}) <$> d.
Proof. by rewrite jar_cookies_single, <- list_fmap_compose. Qed.

(** A jar loaded from a dict of values that are not empty reads back as
    that dict. *)
Lemma jar_dict_single (d : list (string * string)) :
  NoDup d.*1 → (∀ k v, (k, v) ∈ d → v ≠ "") →
  jar_dict [("", [("/", (λ kv, (kv.1, Some kv.2)) <$> d)])] = Ok d.
Proof.
  intros Hnd Hv. unfold jar_dict. rewrite jar_cookies_loaded.
  rewrite <- list_fmap_compose.
  apply (dict_from_keys_all _ d []); [done|].
  intros k v Hin. unfold find_no_duplicates. rewrite jar_cookies_loaded.
  pose (c := {| cookie_domain := ""; cookie_path := "/";
                cookie_name := k; cookie_value := Some v |}).
  change k with (cookie_name c) at 1.
  rewrite (find_loop_unique c).
  - simpl. rewrite decide_False; [done|]. by apply (Hv k).
  - by rewrite <- list_fmap_compose.
  - apply list_elem_of_fmap. by exists (k, v).
Qed.

Lemma od_set_keys {V} (k : string) (v : V) (d : list (string * V)) :
  (od_set k v d).*1 = if decide (k ∈ d.*1) then d.*1 else (d.*1 ++ [k])%list.
Proof.
  induction d as [|[k0 v0] d IH].
  - case_decide as Hin; [by apply elem_of_nil in Hin | done].
  - simpl od_set. destruct (decide (k = k0)) as [->|Hne].
    + rewrite decide_True; [done|]. left.
    + rewrite fmap_cons, IH. simpl. repeat case_decide; try done.
      * exfalso. apply H0. by right.
      * exfalso. apply elem_of_cons in H0 as [?|?]; done.
Qed.

Lemma od_set_NoDup {V} (k : string) (v : V) (d : list (string * V)) :
  NoDup d.*1 → NoDup (od_set k v d).*1.
Proof.
  intros Hnd. rewrite od_set_keys. destruct (decide (k ∈ d.*1)); [done|].
  apply NoDup_app. split_and!; [done| |apply NoDup_singleton].
  intros x Hx ->%list_elem_of_singleton. done.
Qed.

Lemma od_set_elem_of {V} (k : string) (v : V) (d : list (string * V)) kv :
  kv ∈ od_set k v d → kv = (k, v) ∨ kv ∈ d.
Proof.
  induction d as [|[k0 v0] d IH]; simpl.
  - intros ->%list_elem_of_singleton. by left.
  - destruct (decide (k = k0)) as [->|Hne].
    + intros [->|Hin]%elem_of_cons; [by left | right; by right].
    + intros [->|Hin]%elem_of_cons; [right; left|].
      destruct (IH Hin) as [->|Hd]; [by left | right; by right].
Qed.

Lemma find_no_duplicates_truthy (name v : string) (jar : CookieJar) :
  find_no_duplicates name jar = Ok v → v ≠ "".
Proof.
  unfold find_no_duplicates.
  destruct (find_loop name None (jar_cookies jar)) as [[v0|]|]; simpl; [|done..].
  destruct (decide (v0 = "")); [done|]. by intros [= <-].
Qed.

Lemma dict_from_keys_wf (jar : CookieJar) (keys : list string)
    (acc d : list (string * string)) :
  dict_from_keys jar keys acc = Ok d →
  NoDup acc.*1 → (∀ k v, (k, v) ∈ acc → v ≠ "") →
  NoDup d.*1 ∧ (∀ k v, (k, v) ∈ d → v ≠ "").
Proof.
  revert acc. induction keys as [|key keys IH]; intros acc; simpl.
  - by intros [= <-].
  - destruct (find_no_duplicates key jar) as [v0|] eqn:E; simpl; [|done].
    intros Hd Hnd Hv. apply (IH _ Hd).
    + by apply od_set_NoDup.
    + intros k v [[= -> ->]|Hin]%od_set_elem_of; [|by apply (Hv k)].
      by apply (find_no_duplicates_truthy _ _ _ E).
Qed.

(** What [dict(jar)] returns holds each name once, with a value that is not
    empty. *)
Lemma jar_dict_wf (jar : CookieJar) (d : list (string * string)) :
  jar_dict jar = Ok d → NoDup d.*1 ∧ (∀ k v, (k, v) ∈ d → v ≠ "").
Proof.
  intros Hd. apply (dict_from_keys_wf _ _ _ _ Hd); [apply NoDup_nil_2|].
  intros k v Hin. by apply elem_of_nil in Hin.
Qed.

Lemma Http_init_jar (ua px : string) (t : Z) (lg : option Logger)
    (dbg : option Debugger) (h : Http) :
  Http_init ua px t lg dbg = Ok h → cookies (client h) = [].
Proof.
  unfold Http_init. destruct (negb (truthy (VStr ua))); [done|].
  intros E. injection E as <-. by destruct px.
Qed.

(** Well-formed jars, and what [clear] does to them. *)
Lemma jar_wf_names (jar : CookieJar) (dom p : string)
    (c2 : list (string * list (string * option string)))
    (c3 : list (string * option string)) :
  jar_wf jar → od_get dom jar = Some c2 → od_get p c2 = Some c3 → NoDup c3.*1.
Proof.
  intros [_ Hwf] H2%od_get_elem_of H3%od_get_elem_of.
  rewrite Forall_forall in Hwf. destruct (Hwf _ H2) as [_ Hc2].
  rewrite Forall_forall in Hc2. exact (Hc2 _ H3).
Qed.

Lemma od_set_Forall {V} (P : string * V → Prop) (k : string) (v : V)
    (d : list (string * V)) :
  P (k, v) → Forall P d → Forall P (od_set k v d).
Proof.
  intros Hkv. induction 1 as [|[k0 v0] d H0 Hd IH]; simpl.
  - by constructor.
  - destruct (decide (k = k0)) as [->|]; by constructor.
Qed.

Lemma od_get_Forall {V} (P : string * V → Prop) (k : string) (v : V)
    (d : list (string * V)) :
  Forall P d → od_get k d = Some v → P (k, v).
Proof.
  intros Hd Hk%od_get_elem_of. rewrite Forall_forall in Hd. auto.
Qed.

Lemma jar_clear_wf (dom p name : string) (jar : CookieJar) :
  jar_wf jar → jar_wf (jar_clear dom p name jar).
Proof.
  intros Hwf. unfold jar_clear.
  destruct (od_get dom jar) as [c2|] eqn:E2; [|done].
  destruct (od_get p c2) as [c3|] eqn:E3; [|done].
  pose proof (jar_wf_names _ _ _ _ _ Hwf E2 E3) as Hc3.
  destruct Hwf as [Hnd Hall].
  destruct (od_get_Forall _ _ _ _ Hall E2) as [Hc2 Hall2]. simpl in Hc2, Hall2.
  split; [by apply od_set_NoDup|].
  apply od_set_Forall; [|done]. simpl. split; [by apply od_set_NoDup|].
  apply od_set_Forall; [|done]. simpl.
  eapply sublist_NoDup; [exact Hc3 | apply od_del_keys].
Qed.

Lemma jar_lookup_clear_ne (dom p k d0 p0 n0 : string) (jar : CookieJar) :
  k ≠ n0 → jar_lookup dom p k (jar_clear d0 p0 n0 jar) = jar_lookup dom p k jar.
Proof.
  intros Hk. unfold jar_clear.
  destruct (od_get d0 jar) as [c2|] eqn:E2; [|done].
  destruct (od_get p0 c2) as [c3|] eqn:E3; [|done].
  unfold jar_lookup. rewrite od_get_set.
  destruct (decide (dom = d0)) as [->|Hd]; simpl; [|done].
  rewrite E2. simpl. rewrite od_get_set.
  destruct (decide (p = p0)) as [->|Hp]; simpl; [|done].
  rewrite E3. simpl. by apply od_get_del_ne.
Qed.

Lemma jar_lookup_clear_all_ne (key dom p k : string) (l : list Cookie) (jar : CookieJar) :
  Forall (λ c, cookie_name c = key) l → k ≠ key →
  jar_lookup dom p k
    (foldl (λ j c, jar_clear (cookie_domain c) (cookie_path c) (cookie_name c) j) jar l)
  = jar_lookup dom p k jar.
Proof.
  intros Hl Hk. revert jar. induction Hl as [|c l Hc Hl IH]; intros jar; [done|].
  simpl foldl. rewrite IH. apply jar_lookup_clear_ne. congruence.
Qed.

Lemma names_filtered (key : string) (cs : list Cookie) :
  Forall (λ c, cookie_name c = key) (filter (λ c, cookie_name c = key) cs).
Proof. apply Forall_forall. by intros c [? _]%list_elem_of_filter. Qed.

Lemma jar_lookup_clear (dom p k d0 p0 n0 : string) (jar : CookieJar) :
  jar_wf jar →
  jar_lookup dom p k (jar_clear d0 p0 n0 jar) =
  if decide (dom = d0 ∧ p = p0 ∧ k = n0) then None else jar_lookup dom p k jar.
Proof.
  intros Hwf. unfold jar_clear.
  destruct (od_get d0 jar) as [c2|] eqn:E2.
  - destruct (od_get p0 c2) as [c3|] eqn:E3.
    + pose proof (jar_wf_names _ _ _ _ _ Hwf E2 E3) as Hc3.
      unfold jar_lookup. rewrite od_get_set.
      destruct (decide (dom = d0)) as [->|Hd]; simpl.
      * rewrite E2. simpl. rewrite od_get_set.
        destruct (decide (p = p0)) as [->|Hp]; simpl.
        -- rewrite E3. simpl. destruct (decide (k = n0)) as [->|Hk].
           ++ rewrite decide_True by done. by apply od_get_del_eq.
           ++ rewrite decide_False by tauto. by apply od_get_del_ne.
        -- by rewrite decide_False by tauto.
      * by rewrite decide_False by tauto.
    + case_decide as E; [|done]. destruct E as (-> & -> & ->).
      unfold jar_lookup. rewrite E2. simpl. by rewrite E3.
  - case_decide as E; [|done]. destruct E as (-> & -> & ->).
    unfold jar_lookup. by rewrite E2.
Qed.

Lemma jar_lookup_cookies (dom p k : string) (v : option string) (jar : CookieJar) :
  jar_lookup dom p k jar = Some v →
  {| cookie_domain := dom; cookie_path := p; cookie_name := k; cookie_value := v |}
  ∈ jar_cookies jar.
Proof.
  unfold jar_lookup, jar_cookies.
  destruct (od_get dom jar) as [c2|] eqn:E2; simpl; [|done].
  destruct (od_get p c2) as [c3|] eqn:E3; simpl; [|done].
  intros E1. apply list_elem_of_bind. exists (dom, c2).
  split; [|by apply od_get_elem_of].
  apply list_elem_of_bind. exists (p, c3). split; [|by apply od_get_elem_of].
  apply list_elem_of_bind. exists (k, v). split; [|by apply od_get_elem_of].
  simpl. left.
Qed.

(** Clearing cookies of one name: what was not there stays away, and what
    the list names is gone. *)
Lemma jar_lookup_clear_all (key dom p : string) (l : list Cookie) (jar : CookieJar) :
  jar_wf jar → Forall (λ c, cookie_name c = key) l →
  (jar_lookup dom p key jar = None
   ∨ ∃ c, c ∈ l ∧ cookie_domain c = dom ∧ cookie_path c = p) →
  jar_lookup dom p key
    (foldl (λ j c, jar_clear (cookie_domain c) (cookie_path c) (cookie_name c) j) jar l)
  = None.
Proof.
  intros Hwf Hl. revert jar Hwf.
  induction Hl as [|c l Hc Hl IH]; intros jar Hwf.
  - intros [E|(c & Hin & _)]; [done|]. by apply elem_of_nil in Hin.
  - simpl foldl. intros Hcase. apply IH; [by apply jar_clear_wf|].
    rewrite jar_lookup_clear by done.
    case_decide as E; [by left|].
    destruct Hcase as [E0|(c' & Hin & Ed & Ep)]; [by left|].
    apply elem_of_cons in Hin as [->|Hin]; [|right; by exists c'].
    exfalso. apply E. by rewrite Hc.
Qed.

(** A cookie whose value is the empty string cannot be read by name. *)
Lemma find_loop_holding (name x : string) (cs : list Cookie) :
  find_loop name (Some x) cs = Err CookieConflictError
  ∨ find_loop name (Some x) cs = Ok (Some x).
Proof.
  induction cs as [|c cs IH]; simpl; [by right|].
  destruct (decide (cookie_name c = name)); [by left | done].
Qed.

Lemma find_loop_empty_value (c0 : Cookie) (acc : option string) (cs : list Cookie) :
  c0 ∈ cs → cookie_value c0 = Some "" →
  find_loop (cookie_name c0) acc cs = Err CookieConflictError
  ∨ find_loop (cookie_name c0) acc cs = Ok (Some "").
Proof.
  intros Hin Hv. revert acc. induction cs as [|c cs IH]; intros acc.
  - by apply elem_of_nil in Hin.
  - simpl. destruct (decide (cookie_name c = cookie_name c0)) as [En|En].
    + destruct acc; [by left|].
      apply elem_of_cons in Hin as [<-|Hin]; [|by apply IH].
      rewrite Hv. apply find_loop_holding.
    + apply elem_of_cons in Hin as [->|Hin]; [done | by apply IH].
Qed.

Lemma dict_from_keys_raises (jar : CookieJar) (key : string) (e0 : exn)
    (keys : list string) (acc : list (string * string)) :
  key ∈ keys → find_no_duplicates key jar = Err e0 →
  ∃ e, dict_from_keys jar keys acc = Err e.
Proof.
  intros Hin Hkey. revert acc. induction keys as [|k keys IH]; intros acc.
  - by apply elem_of_nil in Hin.
  - simpl. destruct (find_no_duplicates k jar) as [v|e] eqn:E; simpl; [|by eexists].
    apply elem_of_cons in Hin as [->|Hin]; [congruence | by apply IH].
Qed.

Lemma jar_dict_empty_value (dom p k : string) (jar : CookieJar) :
  jar_lookup dom p k jar = Some (Some "") → ∃ e, jar_dict jar = Err e.
Proof.
  intros Hin%jar_lookup_cookies. unfold jar_dict.
  assert (∃ e0, find_no_duplicates k jar = Err e0) as [e0 He0].
  { unfold find_no_duplicates.
    destruct (find_loop_empty_value _ None _ Hin eq_refl) as [E|E];
      simpl in E; rewrite E; by eexists. }
  apply (dict_from_keys_raises _ k e0); [|done].
  apply list_elem_of_fmap. eexists. by split; [|exact Hin].
Qed.

(** The amended C9. Whenever [cookie_save] can serialise the jar of a client
    (that is, [dict(jar)] returns) and the jar's quote rewriting leaves each
    saved value as it is, the file holds that mapping, and a freshly built
    client that then runs [cookie_load] on the path ends with a jar that
    reads back as exactly that mapping; on a path where there is no file,
    [cookie_load] returns with nothing changed. *)
Theorem cookie_round_trip (ua px : string) (t : Z) (lg : option Logger)
    (dbg : option Debugger) (fresh h : Http) (w : World) (path : string)
    (d : list (string * string)) :
  Http_init ua px t lg dbg = Ok fresh →
  jar_dict (cookies (client h)) = Ok d →
  Forall (λ kv, jar_rewrite (Some kv.2) = Some kv.2) d →
  (∃ w1 fresh',
     cookie_save path (h, w) = Return tt (h, w1)
     ∧ IO_load_dict path w1 = Ok d
     ∧ cookie_load path (fresh, w1) = Return tt (fresh', w1)
     ∧ jar_dict (cookies (client fresh')) = Ok d)
  ∧ (∀ (h0 : Http) (w0 : World) (p : string),
       is_file p w0 = false → cookie_load p (h0, w0) = Return tt (h0, w0)).
Proof.
  intros Hfresh Hd Hstable. split.
  - destruct (jar_dict_wf _ _ Hd) as [Hnd Hv].
    exists (IO_save_dict path d w). eexists. split_and!.
    + unfold cookie_save, mbind, M_bind. simpl. by rewrite Hd.
    + unfold IO_load_dict. simpl. by rewrite lookup_insert_eq.
    + unfold cookie_load, IO_load_dict, is_file, mbind, M_bind. simpl.
      rewrite lookup_insert_eq. rewrite bool_decide_eq_true_2 by eauto.
      reflexivity.
    + simpl. rewrite (Http_init_jar _ _ _ _ _ _ Hfresh).
      destruct (decide (d = [])) as [->|Hne]; [done|].
      rewrite jar_update_empty by done.
      replace ((λ kv : string * string, (kv.1, jar_rewrite (Some kv.2))) <$> d)
        with ((λ kv : string * string, (kv.1, Some kv.2)) <$> d).
      * by apply jar_dict_single.
      * apply Forall_fmap_ext_1. eapply Forall_impl; [exact Hstable|].
        intros kv E. cbv beta. by rewrite E.
  - intros h0 w0 p Hp. unfold cookie_load, mbind, M_bind. simpl. by rewrite Hp.
Qed.

(** X19. [cookie_load] merges the file into the jar: every cookie of the
    file is in the jar afterwards under the empty domain and the root path,
    with the file's value as the jar rewrites it on the way in (a quoted
    value loses its escaped quotes), replacing a cookie of that name held
    there; every other cookie is as it was, and headers and world are
    untouched. *)
Theorem cookie_load_merges (path : string) (d : list (string * string))
    (h : Http) (w : World) :
  files w !! path = Some (DictFile d) → NoDup d.*1 →
  ∃ h', cookie_load path (h, w) = Return tt (h', w)
        ∧ (∀ k v, (k, v) ∈ d →
             jar_lookup "" "/" k (cookies (client h')) = Some (jar_rewrite (Some v)))
        ∧ (∀ dom p k, (dom, p) ≠ ("", "/") ∨ k ∉ d.*1 →
             jar_lookup dom p k (cookies (client h'))
             = jar_lookup dom p k (cookies (client h)))
        ∧ headers (client h') = headers (client h).
Proof.
  intros Hf Hnd. unfold cookie_load, IO_load_dict, is_file, mbind, M_bind. simpl.
  rewrite Hf. rewrite bool_decide_eq_true_2 by eauto. simpl.
  eexists. split; [reflexivity|]. simpl. split_and!; [| |done].
  - intros k v Hin. by apply jar_lookup_update.
  - intros dom p k Hk. by apply jar_lookup_update_other.
Qed.

(** X20. [cookie_set] with a value stores it for the empty domain and the
    root path, as the jar rewrites it (a quoted value loses its escaped
    quotes), and leaves every other cookie; set to the empty string, the
    cookie makes every following [cookie_save] raise and write nothing.
    [cookie_set] with None leaves the cookies of other names, and in a jar
    that holds each key once no cookie of that name is left under any
    domain and path.  Headers and world are untouched. *)
Theorem cookie_set_stores (key : string) (value : option string)
    (h : Http) (w : World) :
  ∃ h', cookie_set key value (h, w) = Return tt (h', w)
        ∧ headers (client h') = headers (client h)
        ∧ (∀ v, value = Some v →
             jar_lookup "" "/" key (cookies (client h')) = Some (jar_rewrite (Some v)))
        ∧ (∀ dom p k, k ≠ key ∨ (is_Some value ∧ (dom, p) ≠ ("", "/")) →
             jar_lookup dom p k (cookies (client h'))
             = jar_lookup dom p k (cookies (client h)))
        ∧ (value = Some "" →
           ∀ path, ∃ e, cookie_save path (h', w) = Raise e (h', w))
        ∧ (value = None → jar_wf (cookies (client h)) →
           ∀ dom p, jar_lookup dom p key (cookies (client h')) = None).
Proof.
  remember (jar_set key value (cookies (client h))) as jar eqn:Ejar.
  exists (set_client (set_cookies jar (client h)) h).
  split; [by rewrite Ejar|]. simpl. split_and!; [done|..].
  - intros v ->. rewrite Ejar, jar_lookup_set. by rewrite decide_True.
  - intros dom p k Hk. rewrite Ejar. destruct value as [v|].
    + rewrite jar_lookup_set. apply decide_False. intros (-> & -> & ->).
      destruct Hk as [?|[_ ?]]; done.
    + destruct Hk as [Hk|[[? [=]] _]].
      unfold jar_set, remove_cookie_by_name.
      apply (jar_lookup_clear_all_ne key); [apply names_filtered | done].
  - intros -> path.
    destruct (jar_dict_empty_value "" "/" key jar) as [e He].
    { rewrite Ejar, jar_lookup_set. by rewrite decide_True. }
    exists e. unfold cookie_save, mbind, M_bind. simpl. by rewrite He.
  - intros -> Hwf dom p. rewrite Ejar. unfold jar_set, remove_cookie_by_name.
    apply (jar_lookup_clear_all key); [done | apply names_filtered |].
    destruct (jar_lookup dom p key (cookies (client h))) as [v|] eqn:E; [|by left].
    right.
    exists {| cookie_domain := dom; cookie_path := p;
              cookie_name := key; cookie_value := v |}.
    split; [|done].
    apply list_elem_of_filter. split; [done|]. by apply jar_lookup_cookies.
Qed.

(** *** The configuration *)

(** X21. For the class as written, and with [private] overridden or not,
    the data directory lies under [dir_app / "dat"] and outside the output
    tree, the three output directories lie under [dir_out] and outside the
    data tree, and [private] only adds the final ["private"] part. *)
Theorem Config_directories (here : Path) (self : Config) :
  dir_app self = here →
  path_join here "dat" `prefix_of` dir_dat self
  ∧ ¬ dir_out here `prefix_of` dir_dat self
  ∧ (∀ p, p ∈ [dir_debug here; dir_log here; dir_tmp here] →
          dir_out here `prefix_of` p ∧ ¬ path_join here "dat" `prefix_of` p)
  ∧ dir_dat {| private := true; dir_app := here |}
    = path_join (dir_dat {| private := false; dir_app := here |}) "private".
Proof.
  intros Happ. unfold dir_dat, dir_debug, dir_log, dir_tmp, dir_out, path_join.
  rewrite Happ. split_and!.
  - destruct (private self); [|done]. by eexists.
  - intros [k Hk]. destruct (private self);
      rewrite <- ?app_assoc in Hk; apply app_inv_head in Hk; done.
  - intros p Hp. rewrite !elem_of_cons, elem_of_nil in Hp.
    destruct Hp as [-> | [-> | [-> | []]]]; (split; [by eexists|]);
      intros [k Hk]; rewrite <- ?app_assoc in Hk; apply app_inv_head in Hk; done.
  - done.
Qed.

(** X22. [http_get_json] meets a failing transport the way
    [http_get_html] does: on a fetcher whose client has its logger, with
    every dispatch failing on a RequestException and at least one attempt
    allowed, [req] hands back None, [with None as response] raises, and the
    call ends in that error after one dispatch and no delay, in debug mode
    and out of it. *)
Theorem http_get_json_transport_failure (url : string) (debug : bool) (retry : Z)
    (self : SmartHTTP) (w : World) :
  attached (logger (http self)) = true →
  (∀ n c, ∃ e, transport n c = TRaise e ∧ is_RequestException e = true) →
  (0 < retry)%Z →
  ∃ s', http_get_json url debug retry (self, w) = Raise NotContextManager s'
        ∧ dispatches s'.2 = (dispatches w + 1)%nat
        ∧ sleeps s'.2 = sleeps w.
Proof.
  intros Hl Ht Hr. unfold http_get_json.
  destruct (Z.to_nat retry) as [|n] eqn:En; [lia|]. simpl.
  destruct (req_swallows_failure "GET" url debug ∅ (http self) w _ Hl
              (prepare_headers_empty _ _) (Ht _)) as (c & e & h' & w' & E & Ev).
  unfold mbind, M_bind, try_except, on_http, zoom, get. simpl. rewrite E. simpl.
  eexists. split; [reflexivity|]. simpl.
  destruct (dispatches_events _ _ _ Ev) as [-> ->]. simpl. lia.
Qed.

(** X23. Constructing a fetcher never completes.  When both identity
    sources load, [__init__] fails while building the default client: with
    IndexError when the user agents, or else the proxies, that passed the
    filter are none, and otherwise with the TypeError of [new_http]'s
    misspelt keyword. *)
Theorem SmartHTTP_init_never_completes (fua fpx : string) (lg : Logger) (t : Z)
    (dbg : option Debugger) (w : World) :
  (∀ self, SmartHTTP_init fua fpx lg t dbg w ≠ Ok self)
  ∧ (∀ uas pxs,
       load_user_agent fua w = Ok uas → load_proxy fpx w = Ok pxs →
       SmartHTTP_init fua fpx lg t dbg w =
       match uas, pxs with
       | _ :: _, _ :: _ => Err (TypeError "got an unexpected keyword argument 'timeou'")
       | _, _ => Err IndexError
       end).
Proof.
  split.
  - intros self E. destruct (SmartHTTP_init_raises fua fpx lg t dbg w) as [e He].
    congruence.
  - intros uas pxs Eu Ep. unfold SmartHTTP_init, mbind, result_bind.
    rewrite Eu, Ep. by destruct uas, pxs.
Qed.

End Properties.

(** * Runs on sample inputs *)

(** C2, at the code. A client built with the constructor's defaults has no
    logger; when the dispatch of its [req] fails to connect, the handler's
    [self.logger.exception(err)] raises AttributeError, which reaches the
    caller: [req] does not return None. *)
Theorem req_default_client_propagates :
  ∃ h s',
    Http_new (platform := refusing)
      [("user_agent", AStr "Mozilla/5.0"); ("proxy_url", AStr "")] = Ok h
    ∧ logger h = None
    ∧ req (platform := refusing) "GET" "http://example.com/" false ∅ (h, empty_world)
      = Raise (AttributeError "exception") s'.
Proof. eexists _, _. split_and!; vm_compute; reflexivity. Qed.

(** C7, at the code.  The module's class statements run in order when it
    is imported.  [AbsHttpData] goes through; the statement of
    [HttpRequest] raises ValueError, because [params: dict = {}] gives a
    dataclass field a mutable default, and the import ends there: the
    classes of the debug record are never defined, and no call can persist
    one.  The body of [HttpResponse], which would be refused likewise for
    its [headers], declares [success = False] and [code = 200], the zero
    value the record was meant to keep. *)
Theorem dataclass_mutable_defaults :
  dataclass [] AbsHttpData_body = Ok AbsHttpData_body
  ∧ dataclass AbsHttpData_body HttpRequest_body
    = Err (ValueError
             "mutable default <class 'dict'> for field params is not allowed: use default_factory")
  ∧ dataclass AbsHttpData_body HttpResponse_body
    = Err (ValueError
             "mutable default <class 'dict'> for field headers is not allowed: use default_factory")
  ∧ module_classes
    = Err (ValueError
             "mutable default <class 'dict'> for field params is not allowed: use default_factory")
  ∧ od_get "success" ((λ f, (field_name f, field_default f)) <$> HttpResponse_body)
    = Some (Some (VBool false))
  ∧ od_get "code" ((λ f, (field_name f, field_default f)) <$> HttpResponse_body)
    = Some (Some (VInt 200)).
Proof. split_and!; vm_compute; reflexivity. Qed.

(** Against C3 as stated: in debug mode, on a 200 response with body
    ["{not json"], [http_get_json] raises the decode error instead of
    returning the empty mapping. *)
Lemma http_get_json_debug_raises :
  ∃ s', http_get_json (platform := garbling) "http://example.com/" true 3
          (sample_fetcher, empty_world) = Raise JSONDecodeError s'.
Proof. eexists. vm_compute. reflexivity. Qed.

(** Against C8 as stated: the caller supplies [timeout=0], and the call
    that reaches the transport carries the session default 30. *)
Lemma req_timeout_zero_replaced :
  (<["timeout" := VInt 0]> ∅ : gmap string pyval) !! "timeout" = Some (VInt 0)
  ∧ dispatched_timeouts
      (state_of (req (platform := refusing) "GET" "http://example.com/" false
                   (<["timeout" := VInt 0]> ∅)
                   (sample_client (Some LoggerRef) None, empty_world))).2
    = [Some (VInt 30)].
Proof. split; vm_compute; reflexivity. Qed.

(** Against C9 as stated.  A cookie set to a quoted value that holds a
    backslash before an escaped quote is stored with the escaped quote
    gone; the file gets that stored value, which is quoted and holds an
    escaped quote again, so the fresh client that loads the file stores yet
    another value.  And a cookie set to the empty string makes
    [cookie_save] raise: nothing is written. *)
Lemma cookie_round_trip_rewrites :
  let set_value := dquote ++ backslash ++ backslash ++ dquote ++ dquote ++ "x" ++ dquote in
  let saved := dquote ++ backslash ++ dquote ++ "x" ++ dquote in
  let loaded := dquote ++ "x" ++ dquote in
  let fresh := sample_client None None in
  let h := (state_of (cookie_set "sid" (Some set_value) (fresh, empty_world))).1 in
  let w1 := (state_of (cookie_save "cookies.json" (h, empty_world))).2 in
  let fresh' := (state_of (cookie_load "cookies.json" (fresh, w1))).1 in
  let h0 := (state_of (cookie_set "sid" (Some "") (fresh, empty_world))).1 in
  (cookie_save "cookies.json" (h, empty_world) = Return tt (h, w1)
   ∧ jar_dict (cookies (client h)) = Ok [("sid", saved)]
   ∧ IO_load_dict "cookies.json" w1 = Ok [("sid", saved)]
   ∧ cookie_load "cookies.json" (fresh, w1) = Return tt (fresh', w1)
   ∧ jar_dict (cookies (client fresh')) = Ok [("sid", loaded)]
   ∧ saved ≠ loaded)
  ∧ cookie_save "cookies.json" (h0, empty_world)
    = Raise (KeyError "sid") (h0, empty_world).
Proof. vm_compute. split_and!; try reflexivity. discriminate. Qed.

(** The theorems above at the sample inputs. *)

(** C1 on the sample fetcher with a transport that never connects. *)
Lemma http_get_html_transport_failure_witness :
  ∃ s', http_get_html (platform := refusing) "http://example.com/" false 3
          (sample_fetcher, empty_world) = Raise NotContextManager s'
        ∧ dispatches s'.2 = (dispatches empty_world + 1)%nat
        ∧ sleeps s'.2 = sleeps empty_world.
Proof.
  apply (http_get_html_transport_failure (platform := refusing)).
  - reflexivity.
  - intros n c. eexists. split; reflexivity.
  - lia.
Defined.

(** The amended C3 on the sample fetcher, every answer a 200 that is not JSON. *)
Lemma http_get_json_parse_failure_witness :
  (∃ s', http_get_json (platform := garbling) "http://example.com/" false 3
           (sample_fetcher, empty_world) = Return (VDict []) s'
         ∧ dispatches s'.2 = (dispatches empty_world + Z.to_nat 3)%nat
         ∧ sleeps s'.2 = (sleeps empty_world + Z.to_nat 3)%nat)
  ∧ (∃ s', http_get_json (platform := garbling) "http://example.com/" true 3
             (sample_fetcher, empty_world) = Raise JSONDecodeError s'
           ∧ dispatches s'.2 = (dispatches empty_world + 1)%nat
           ∧ sleeps s'.2 = sleeps empty_world).
Proof.
  destruct (http_get_json_parse_failure (platform := garbling)
              "http://example.com/" 3 sample_fetcher empty_world eq_refl)
    as [Hquiet Hdebug].
  split.
  - apply Hquiet. intros k c. exists not_json_response.
    split; [reflexivity | right; reflexivity].
  - apply Hdebug; [|lia]. intros k c. exists not_json_response.
    split; [reflexivity | split; reflexivity].
Defined.

(** C6 on three option bags: a JSON payload, a generic payload, and a JSON
    payload with an explicit Content-Type entry. *)
Lemma prepare_headers_content_type_witness :
  let s0 := (sample_client None None, empty_world) in
  let payload := VDict [("answer", VInt 42)] in
  let kw_json : gmap string pyval := <["json" := payload]> ∅ in
  let kw_data : gmap string pyval := <["data" := payload]> ∅ in
  let kw_both : gmap string pyval :=
    <["json" := payload]>
      (<["headers" := VDict [("content-type", VStr "text/plain")]]> ∅) in
  header_get "Content-Type" (state_of (prepare_headers kw_json s0)).1
  = VStr json_content_type
  ∧ header_get "Content-Type" (state_of (prepare_headers kw_data s0)).1
    = VStr form_content_type
  ∧ ci_get "Content-Type" (headers (client (state_of (prepare_headers kw_both s0)).1))
    = Some (VStr "text/plain").
Proof.
  intros s0 payload kw_json kw_data kw_both.
  destruct (prepare_headers_content_type kw_json s0) as (Hjson & _ & _).
  destruct (prepare_headers_content_type kw_data s0) as (_ & Hdata & _).
  destruct (prepare_headers_content_type kw_both s0) as (_ & _ & Hexplicit).
  split; [|split].
  - apply Hjson; reflexivity.
  - apply Hdata; reflexivity.
  - apply (Hexplicit "Content-Type" (VStr "text/plain")). reflexivity.
Defined.

(** The amended C8 on a call that supplies [timeout=5]. *)
Lemma req_timeout_default_witness :
  let h := sample_client (Some LoggerRef) None in
  let kwargs : gmap string pyval := <["timeout" := VInt 5]> ∅ in
  ∃ (c : Call) (rest : list Event),
    events (state_of (req (platform := refusing) "GET" "http://example.com/" false
                        kwargs (h, empty_world))).2
    = (events empty_world ++ Dispatched c :: rest)%list
    ∧ call_kwargs c =
      if truthy (kwargs_get "timeout" kwargs) then kwargs
      else <["timeout" := VInt (timeout h)]> kwargs.
Proof.
  intros h kwargs.
  apply (req_timeout_default (platform := refusing) "GET" "http://example.com/"
           false kwargs h empty_world (h, empty_world)).
  reflexivity.
Defined.

(** The amended C9 on a jar holding one cookie. *)
Lemma cookie_round_trip_witness :
  let fresh := sample_client None None in
  let h := (state_of (cookie_set "sid" (Some "abc") (fresh, empty_world))).1 in
  let d := [("sid", "abc")] in
  (∃ w1 fresh',
     cookie_save "cookies.json" (h, empty_world) = Return tt (h, w1)
     ∧ IO_load_dict "cookies.json" w1 = Ok d
     ∧ cookie_load "cookies.json" (fresh, w1) = Return tt (fresh', w1)
     ∧ jar_dict (cookies (client fresh')) = Ok d)
  ∧ (∀ (h0 : Http) (w0 : World) (p : string),
       is_file p w0 = false → cookie_load p (h0, w0) = Return tt (h0, w0)).
Proof.
  intros fresh h d.
  apply (cookie_round_trip (platform := refusing) "Mozilla/5.0" "" 30 None None).
  - reflexivity.
  - reflexivity.
  - repeat constructor.
Defined.

(** C10 on the sample client without a logger, answered and refused. *)
Lemma req_without_logger_raises_witness :
  (∃ h, Http_new (platform := garbling)
          [("user_agent", AStr "Mozilla/5.0"); ("proxy_url", AStr "")] = Ok h
        ∧ logger h = None)
  ∧ (∃ msg s', req (platform := garbling) "GET" "http://example.com/" false ∅
                 (sample_client None None, empty_world)
               = Raise (AttributeError msg) s')
  ∧ (∃ msg s', req (platform := refusing) "GET" "http://example.com/" false ∅
                 (sample_client None None, empty_world)
               = Raise (AttributeError msg) s').
Proof.
  destruct (req_without_logger_raises (platform := garbling)) as [Hnew Hanswer].
  destruct (req_without_logger_raises (platform := refusing)) as [_ Hfail].
  split; [|split].
  - apply Hnew. discriminate.
  - apply (Hanswer _ _ _ _ _ _ (sample_client None None, empty_world));
      [reflexivity | reflexivity | intros n c; exact I].
  - apply (Hfail _ _ _ _ _ _ (sample_client None None, empty_world));
      [reflexivity | reflexivity | intros n c; reflexivity].
Defined.

(** The further properties at sample inputs. *)

(** X1 with the header set as [X-Token] and removed as [x-token]. *)
Lemma header_set_then_unset_witness :
  header_get "X-TOKEN"
    (header_set_ "x-token" VNone
       (header_set_ "X-Token" (VStr "t") (sample_client None None)))
  = VStr "".
Proof. apply header_set_then_unset; reflexivity. Defined.

(** X2 with a header read back in lower case, one whose name starts with
    U+00C9 read back under U+00E9, and User-Agent beside them. *)
Lemma header_set_get_round_trip_witness :
  let h := sample_client None None in
  let upper_name := String "201"%char "-Tag" in
  let lower_name := String "233"%char "-tag" in
  header_get "x-token" (header_set_ "X-Token" (VStr "t") h) = VStr "t"
  ∧ header_get lower_name (header_set_ upper_name (VStr "v") h) = VStr "v"
  ∧ header_get "User-Agent" (header_set_ "X-Token" (VStr "t") h)
    = header_get "User-Agent" h.
Proof.
  intros h upper_name lower_name.
  destruct (header_set_get_round_trip "X-Token" (VStr "t") h) as [Hsame Hother].
  destruct (header_set_get_round_trip upper_name (VStr "v") h) as [Hfold _].
  split_and!.
  - apply Hsame; [discriminate | reflexivity | reflexivity].
  - apply Hfold; [discriminate | reflexivity | reflexivity].
  - apply Hother. vm_compute. discriminate.
Defined.

(** X4 for a client built with a proxy. *)
Lemma Http_init_session_witness :
  ∃ h, Http_init (platform := refusing) "Mozilla/5.0" "http://10.0.0.1:8080"
         30 None None = Ok h
       ∧ proxies (client h) !! "http" = Some "http://10.0.0.1:8080"
       ∧ proxies (client h) !! "https" = Some "http://10.0.0.1:8080"
       ∧ cookies (client h) = ∅
       ∧ ci_get "Accept" (headers (client h)) = ci_get "Accept" sample_headers.
Proof.
  eexists. split; [reflexivity|].
  edestruct (Http_init_session (platform := refusing) "Mozilla/5.0"
               "http://10.0.0.1:8080" 30 None None)
    as (Hpx & _ & Hjar & _ & Hhdr); [reflexivity|].
  destruct Hpx as [Hhttp Hhttps]; [discriminate|].
  split_and!; [exact Hhttp | exact Hhttps | exact Hjar |].
  apply Hhdr. vm_compute. discriminate.
Defined.

(** X6 with [headers="X-Token: t"], a string where a dict belongs. *)
Lemma req_bad_headers_option_witness :
  ∃ h', req (platform := answering) "GET" "http://example.com/" false
          (<["headers" := VStr "X-Token: t"]> ∅)
          (sample_client (Some LoggerRef) None, empty_world)
        = Raise (AttributeError "items") (h', empty_world).
Proof.
  apply (req_bad_headers_option (platform := answering) _ _ _ _ (VStr "X-Token: t"));
    [reflexivity | discriminate | discriminate | discriminate].
Defined.

(** X7 with a transport that dies on a ValueError. *)
Lemma req_other_errors_propagate_witness :
  ∃ (c : Call) (s' : Http * World),
    req (platform := crashing) "GET" "http://example.com/" false ∅
      (sample_client (Some LoggerRef) None, empty_world)
    = Raise (OtherError "ValueError") s'
    ∧ events s'.2 = (events empty_world ++ [Dispatched c])%list.
Proof.
  apply (req_other_errors_propagate (platform := crashing) _ _ _ _ _ _
           (sample_client (Some LoggerRef) None, empty_world));
    [reflexivity | reflexivity | reflexivity].
Defined.

(** X8 with a transport that answers 404. *)
Lemma req_answer_returned_witness :
  let h := sample_client (Some LoggerRef) None in
  ∃ s', req (platform := missing) "GET" "http://example.com/" false ∅ (h, empty_world)
        = Return (Some missing_response) s'
        ∧ events s'.2 =
          (events empty_world ++
           [Dispatched {| call_method := "GET"; call_url := "http://example.com/";
                          call_kwargs := sent_kwargs h ∅;
                          call_session := client h |};
            Logged (LogInfo 404 9 "http://example.com/")])%list.
Proof.
  intros h.
  apply (req_answer_returned (platform := missing) "GET" "http://example.com/"
           false ∅ h empty_world (h, empty_world) missing_response);
    [reflexivity | reflexivity | reflexivity].
Defined.

(** X9 with a JSON post followed by a plain get. *)
Lemma req_content_type_persists_witness :
  header_get "Content-Type"
    (state_of (req (platform := answering) "GET" "http://example.com/b" false ∅
       (state_of (req (platform := answering) "POST" "http://example.com/a" false
                    (<["json" := VDict [("answer", VInt 42)]]> ∅)
                    (sample_client (Some LoggerRef) None, empty_world))))).1
  = VStr json_content_type.
Proof.
  apply (req_content_type_persists (platform := answering)); reflexivity.
Defined.

(** X10 with debugging asked for on a client that has no recorder. *)
Lemma req_without_debugging_witness :
  let s' := state_of (req (platform := answering) "GET" "http://example.com/" true ∅
                        (sample_client (Some LoggerRef) None, empty_world)) in
  debug_id s'.2 = debug_id empty_world
  ∧ debug_store s'.2 = debug_store empty_world
  ∧ data s'.1 = data (sample_client (Some LoggerRef) None).
Proof.
  apply (req_without_debugging (platform := answering)). right. reflexivity.
Defined.

(** X14 with two 404 answers before the 200. *)
Lemma http_get_html_short_circuits_witness :
  ∃ s', http_get_html (platform := flaky 2) "http://example.com/" false 3
          (sample_fetcher, empty_world) = Return (text ok_response) s'
        ∧ dispatches s'.2 = (dispatches empty_world + 2 + 1)%nat
        ∧ sleeps s'.2 = (sleeps empty_world + 2)%nat.
Proof.
  apply (http_get_html_short_circuits (platform := flaky 2)).
  - reflexivity.
  - lia.
  - intros i c Hi. exists missing_response.
    destruct i as [|[|i]]; [split; reflexivity | split; reflexivity | lia].
  - reflexivity.
  - reflexivity.
Defined.

(** X15 with the body ["{}"]. *)
Lemma http_get_json_returns_decoded_witness :
  ∃ s', http_get_json (platform := answering) "http://example.com/" false 3
          (sample_fetcher, empty_world) = Return (VDict []) s'
        ∧ dispatches s'.2 = (dispatches empty_world + 1)%nat
        ∧ sleeps s'.2 = sleeps empty_world.
Proof.
  apply (http_get_json_returns_decoded (platform := answering) _ _ _ ok_response);
    [reflexivity | lia | reflexivity | reflexivity | reflexivity].
Defined.

(** X16 with [retry=0] and [retry=-1]. *)
Lemma fetch_without_attempts_witness :
  http_get_html (platform := refusing) "http://example.com/" false 0
    (sample_fetcher, empty_world) = Return "" (sample_fetcher, empty_world)
  ∧ http_get_json (platform := refusing) "http://example.com/" true (-1)
      (sample_fetcher, empty_world) = Return (VDict []) (sample_fetcher, empty_world).
Proof.
  split.
  - apply (fetch_without_attempts (platform := refusing)). lia.
  - apply (fetch_without_attempts (platform := refusing)). lia.
Defined.

(** One name under two domains: the session took [sid] from an answer, the
    caller sets [sid] as well, and [cookie_save] raises
    CookieConflictError. *)
Lemma cookie_save_conflict :
  let s := state_of (http_get_html (platform := tracking) "http://example.com/" false 1
                       (sample_fetcher, empty_world)) in
  let h := (state_of (cookie_set "sid" (Some "x") (http s.1, s.2))).1 in
  cookie_save "cookies.json" (h, s.2) = Raise CookieConflictError (h, s.2).
Proof. vm_compute. reflexivity. Qed.

(** The session keeps the cookies of its answers: after three 404 answers
    that each set a cookie, the fetcher's client holds it. *)
Lemma http_get_html_keeps_cookies :
  jar_lookup "example.com" "/" "sid"
    (cookies (client (http (state_of
       (http_get_html (platform := tracking) "http://example.com/" false 3
          (sample_fetcher, empty_world))).1)))
  = Some (Some "abc").
Proof. vm_compute. reflexivity. Qed.

(** X17 with a transport that always answers 404 and sets a cookie. *)
Lemma http_get_html_exhausts_witness :
  ∃ s', http_get_html (platform := tracking) "http://example.com/" false 3
          (sample_fetcher, empty_world) = Return "" s'
        ∧ dispatches s'.2 = (dispatches empty_world + Z.to_nat 3)%nat
        ∧ sleeps s'.2 = (sleeps empty_world + Z.to_nat 3)%nat.
Proof.
  apply (http_get_html_exhausts (platform := tracking)).
  - reflexivity.
  - intros k c. exists tracking_response. split; reflexivity.
Defined.

(** X18 with a transport that dies on a ValueError. *)
Lemma fetch_other_errors_propagate_witness :
  (∃ s', http_get_html (platform := crashing) "http://example.com/" false 3
           (sample_fetcher, empty_world) = Raise (OtherError "ValueError") s'
         ∧ dispatches s'.2 = (dispatches empty_world + 1)%nat
         ∧ sleeps s'.2 = sleeps empty_world)
  ∧ (∃ s', http_get_json (platform := crashing) "http://example.com/" false 3
             (sample_fetcher, empty_world) = Raise (OtherError "ValueError") s'
           ∧ dispatches s'.2 = (dispatches empty_world + 1)%nat
           ∧ sleeps s'.2 = sleeps empty_world).
Proof.
  apply (fetch_other_errors_propagate (platform := crashing));
    [lia | reflexivity | reflexivity].
Defined.

(** X19 with a file that gives one cookie a new, quoted value and adds
    another, on a jar that holds a third. *)
Lemma cookie_load_merges_witness :
  let d := [("sid", dquote ++ "a" ++ backslash ++ dquote ++ "b" ++ dquote);
            ("lang", "en")] in
  let h := (state_of ((cookie_set "sid" (Some "old") ;; cookie_set "theme" (Some "dark"))
                        (sample_client None None, empty_world))).1 in
  let w := IO_save_dict "cookies.json" d empty_world in
  ∃ h', cookie_load "cookies.json" (h, w) = Return tt (h', w)
        ∧ jar_lookup "" "/" "sid" (cookies (client h'))
          = Some (Some (dquote ++ "ab" ++ dquote))
        ∧ jar_lookup "" "/" "lang" (cookies (client h')) = Some (Some "en")
        ∧ jar_lookup "" "/" "theme" (cookies (client h')) = Some (Some "dark")
        ∧ headers (client h') = headers (client h).
Proof.
  intros d h w.
  destruct (cookie_load_merges "cookies.json" d h w) as (h' & E & Hin & Hout & Hh).
  - reflexivity.
  - apply NoDup_cons. split; [|apply NoDup_singleton].
    intros Hsid%list_elem_of_singleton. discriminate.
  - exists h'. split_and!.
    + exact E.
    + apply (Hin "sid" (dquote ++ "a" ++ backslash ++ dquote ++ "b" ++ dquote)). left.
    + apply (Hin "lang" "en"). right. left.
    + rewrite Hout; [reflexivity|]. right.
      intros [Hk|[Hk|Hk%elem_of_nil]%elem_of_cons]%elem_of_cons;
        [discriminate | discriminate | done].
    + exact Hh.
Defined.

(** X20 with a cookie set to a quoted value, and one set to the empty
    string. *)
Lemma cookie_set_stores_witness :
  let h := sample_client None None in
  (∃ h', cookie_set "sid" (Some (dquote ++ "a" ++ backslash ++ dquote ++ "b" ++ dquote))
           (h, empty_world) = Return tt (h', empty_world)
         ∧ jar_lookup "" "/" "sid" (cookies (client h'))
           = Some (Some (dquote ++ "ab" ++ dquote)))
  ∧ (∃ h', cookie_set "sid" (Some "") (h, empty_world) = Return tt (h', empty_world)
           ∧ jar_lookup "" "/" "sid" (cookies (client h')) = Some (Some "")
           ∧ ∃ e, cookie_save "cookies.json" (h', empty_world)
                  = Raise e (h', empty_world)).
Proof.
  intros h. split.
  - destruct (cookie_set_stores "sid"
                (Some (dquote ++ "a" ++ backslash ++ dquote ++ "b" ++ dquote))
                h empty_world) as (h' & E & _ & Hv & _).
    exists h'. split; [exact E | exact (Hv _ eq_refl)].
  - destruct (cookie_set_stores "sid" (Some "") h empty_world)
      as (h' & E & _ & Hv & _ & Hsave & _).
    exists h'. split_and!;
      [exact E | exact (Hv "" eq_refl) | exact (Hsave eq_refl "cookies.json")].
Defined.

(** X21 for a module in [/srv/app/src], with [private] switched on. *)
Lemma Config_directories_witness :
  let here : Path := ["/"; "srv"; "app"; "src"] in
  let self := {| private := true; dir_app := here |} in
  path_join here "dat" `prefix_of` dir_dat self
  ∧ ¬ dir_out here `prefix_of` dir_dat self
  ∧ (∀ p, p ∈ [dir_debug here; dir_log here; dir_tmp here] →
          dir_out here `prefix_of` p ∧ ¬ path_join here "dat" `prefix_of` p)
  ∧ dir_dat {| private := true; dir_app := here |}
    = path_join (dir_dat {| private := false; dir_app := here |}) "private".
Proof.
  intros here self. apply Config_directories. reflexivity.
Defined.

(** X22 on the sample fetcher with a transport that never connects. *)
Lemma http_get_json_transport_failure_witness :
  ∃ s', http_get_json (platform := refusing) "http://example.com/" false 3
          (sample_fetcher, empty_world) = Raise NotContextManager s'
        ∧ dispatches s'.2 = (dispatches empty_world + 1)%nat
        ∧ sleeps s'.2 = sleeps empty_world.
Proof.
  apply (http_get_json_transport_failure (platform := refusing)).
  - reflexivity.
  - intros n c. eexists. split; reflexivity.
  - lia.
Defined.

(** X23 with one user agent and one proxy passing the filters. *)
Lemma SmartHTTP_init_never_completes_witness :
  load_user_agent "ua.txt" identity_world = Ok ["Mozilla/5.0 (X11)"]
  ∧ load_proxy "proxy.txt" identity_world = Ok ["http://10.0.0.1:8080"]
  ∧ SmartHTTP_init (platform := answering) "ua.txt" "proxy.txt" LoggerRef 30 None
      identity_world
    = Err (TypeError "got an unexpected keyword argument 'timeou'").
Proof.
  split; [reflexivity|]. split; [reflexivity|].
  destruct (SmartHTTP_init_never_completes (platform := answering)
              "ua.txt" "proxy.txt" LoggerRef 30 None identity_world) as [_ Hexact].
  apply (Hexact ["Mozilla/5.0 (X11)"] ["http://10.0.0.1:8080"]); reflexivity.
Defined.
